(** * cheribuild: the cross-compilation project model

    A shallow embedding of [pycheribuild/projects/llvm.py] and
    [pycheribuild/projects/cross/crosscompileproject.py], followed by the
    properties of the version gate, the flag composer, the toolchain
    template engine, the environment deriver and the install clean-up.

    Python values are modelled as follows: [str] and [bytes] as [string]
    (a sequence of 8-bit characters), [int] as [Z], [list] as [list],
    the [dict] holding the configure environment as [gmap string string],
    [pathlib.Path] as a record of a root flag and a list of components, and
    raised exceptions as the left summand of a result. *)

From Stdlib Require Import ZArith Ascii DecimalString Lia.
From Stdlib Require DecimalPos DecimalZ.
From stdpp Require Import base gmap strings list.

Local Open Scope Z_scope.

(** ** Python built-ins used by the two source files *)

Module Py.

(** Exceptions that the modelled code raises. [FatalError] and
    [DependencyError] stand for the calls of [fatalError] and
    [Project.dependencyError]; both carry the arguments of the call. *)
Inductive exn : Type :=
| TypeError (what : string)
| ValueError (what : string)
| AssertionError (arg : option string)
| FileNotFoundError (what : string)
| FatalError (args : list string)
| DependencyError (args : list string) (installInstructions : option string).

Definition result (A : Type) : Type := exn + A.

Definition ret {A : Type} (a : A) : result A := inr a.
Definition raise {A : Type} (e : exn) : result A := inl e.
Definition bind {A B : Type} (m : result A) (k : A -> result B) : result B :=
  match m with
  | inl e => inl e
  | inr a => k a
  end.

(** Code that also updates an object or the file system threads a state
    of type [S]; the state at the point of a raise is kept. *)
Definition M (S A : Type) : Type := S -> result A * S.

Definition mret {S A : Type} (a : A) : M S A := fun s => (inr a, s).
Definition mraise {S A : Type} (e : exn) : M S A := fun s => (inl e, s).
Definition mbind {S A B : Type} (m : M S A) (k : A -> M S B) : M S B :=
  fun s =>
    match m s with
    | (inl e, s') => (inl e, s')
    | (inr a, s') => k a s'
    end.
Definition gets {S A : Type} (f : S -> A) : M S A := fun s => (inr (f s), s).
Definition modify {S : Type} (f : S -> S) : M S unit := fun s => (inr tt, f s).

Definition newline : string := String "010"%char EmptyString.
Definition dquote : string := String "034"%char EmptyString.

(** [p] is an initial segment of [s]; on success the rest of [s]. *)
Fixpoint strip_prefix (p s : string) : option string :=
  match p with
  | EmptyString => Some s
  | String a p' =>
      match s with
      | EmptyString => None
      | String b s' => if Ascii.eqb a b then strip_prefix p' s' else None
      end
  end.

Definition startswith (p s : string) : bool :=
  match strip_prefix p s with Some _ => true | None => false end.

(** [needle in hay] on strings. *)
Fixpoint str_in (needle hay : string) : bool :=
  startswith needle hay ||
  match hay with
  | EmptyString => false
  | String _ hay' => str_in needle hay'
  end.

(** [sep.join(l)]. *)
Definition join (sep : string) (l : list string) : string := String.concat sep l.

(** [s.replace(old, new)] for a non-empty [old]: the occurrences of [old]
    are found from the left and do not overlap. [skip] counts the
    characters of a replaced occurrence that are still to be dropped. *)
Fixpoint replace_go (old new : string) (skip : nat) (s : string) : string :=
  match s with
  | EmptyString => EmptyString
  | String c s' =>
      match skip with
      | S n => replace_go old new n s'
      | O =>
          if startswith old s
          then new +:+ replace_go old new (Nat.pred (String.length old)) s'
          else String c (replace_go old new O s')
      end
  end.

Definition replace (old new s : string) : string := replace_go old new O s.

(** [str(n)] for an [int]. *)
Definition str_of_int (n : Z) : string := NilZero.string_of_int (Z.to_int n).

(** *** The part of [re] that [checkClangVersion] needs *)

(** [\d] of a bytes pattern: the ten ASCII digits. *)
Definition is_digit (c : ascii) : bool :=
  let n := nat_of_ascii c in (Nat.leb 48 n) && (Nat.leb n 57).

(** Greedy [\d*] at the start of [s]: the longest run of digits and the
    text after it. *)
Fixpoint span_digits (s : string) : string * string :=
  match s with
  | EmptyString => (EmptyString, EmptyString)
  | String c s' =>
      if is_digit c
      then let '(d, r) := span_digits s' in (String c d, r)
      else (EmptyString, s)
  end.

Definition nonempty (s : string) : bool :=
  match s with EmptyString => false | String _ _ => true end.

Fixpoint all_digits (s : string) : bool :=
  match s with
  | EmptyString => true
  | String c s' => is_digit c && all_digits s'
  end.

(** The texts that [\d+] matches. *)
Definition number (s : string) : Prop :=
  nonempty s = true /\ all_digits s = true.

(** [int(b)] for a run of ASCII digits. *)
Definition digit_value (c : ascii) : Z := Z.of_nat (nat_of_ascii c) - 48.

Fixpoint int_of_digits_go (acc : Z) (s : string) : Z :=
  match s with
  | EmptyString => acc
  | String c s' => int_of_digits_go (10 * acc + digit_value c) s'
  end.

Definition int_of_digits (s : string) : Z := int_of_digits_go 0 s.

(** [int(x)] where [x] is a group of a match: [None] is a group that did
    not take part in the match, and [int(None)] raises [TypeError]. *)
Definition int_of_group (g : option string) : result Z :=
  match g with
  | Some d => ret (int_of_digits d)
  | None => raise (TypeError "int() argument must be a string, a bytes-like object or a number, not 'NoneType'")
  end.

(** [(a, b, c) < (x, y, z)] on tuples of [int]. *)
Definition tuple_lt (v w : Z * Z * Z) : bool :=
  let '(a, b, c) := v in
  let '(x, y, z) := w in
  (a <? x) || ((a =? x) && ((b <? y) || ((b =? y) && (c <? z)))).

End Py.

(** ** [pathlib.Path] on a POSIX host *)

Module Pathlib.
Import Py.

(** A path is its root ([anchored] when it starts at [/]) and its
    components; the root [//] of POSIX is not modelled. *)
Record Path : Type := mkPath { anchored : bool; parts : list string }.

#[global] Instance Path_eq_dec : EqDecision Path.
Proof. solve_decision. Defined.

(** [s.split("/")]. *)
Fixpoint split_slash (s : string) : list string :=
  match s with
  | EmptyString => [EmptyString]
  | String c s' =>
      if Ascii.eqb c "/"
      then EmptyString :: split_slash s'
      else match split_slash s' with
           | w :: ws => String c w :: ws
           | [] => [String c EmptyString]
           end
  end.

Definition is_component (w : string) : bool :=
  negb (String.eqb w EmptyString) && negb (String.eqb w ".").

(** [Path(s)]: empty components and [.] are dropped. *)
Definition of_str (s : string) : Path :=
  {| anchored := startswith "/" s;
     parts := List.filter is_component (split_slash s) |}.

(** [str(p)]. *)
Definition str (p : Path) : string :=
  if anchored p then "/" +:+ join "/" (parts p)
  else match parts p with
       | [] => "."
       | _ => join "/" (parts p)
       end.

(** [p / q] for a path [q]: an anchored [q] replaces [p]. *)
Definition joinpath (p q : Path) : Path :=
  if anchored q then q
  else {| anchored := anchored p; parts := parts p ++ parts q |}.

(** [p / s] for a string [s]. *)
Definition div (p : Path) (s : string) : Path := joinpath p (of_str s).

(** [pre] is an initial segment of [l]; on success the rest of [l]. *)
Fixpoint strip_parts (pre l : list string) : option (list string) :=
  match pre with
  | [] => Some l
  | a :: pre' =>
      match l with
      | [] => None
      | b :: l' => if String.eqb a b then strip_parts pre' l' else None
      end
  end.

(** [self.relative_to(other)]: the root and the components of [other]
    have to start [self]; the result has no root. *)
Definition relative_to (self other : Path) : result Path :=
  if Bool.eqb (anchored self) (anchored other) then
    match strip_parts (parts other) (parts self) with
    | Some rest => ret {| anchored := false; parts := rest |}
    | None => raise (ValueError (str self +:+ " does not start with " +:+ str other))
    end
  else raise (ValueError (str self +:+ " does not start with " +:+ str other)).

(** [p] lies in the directory [root]: it is [root] followed by further
    components. *)
Definition is_inside (p root : Path) : Prop :=
  exists rel : list string, p = joinpath root (mkPath false rel).

(** [fnmatch] of one path component against a pattern in which [*] is
    the only special character, as in the patterns of [install]. *)
Fixpoint fnmatch (pat name : string) : bool :=
  match pat with
  | EmptyString => negb (nonempty name)
  | String c pat' =>
      if Ascii.eqb c "*" then
        (fix star (n : string) : bool :=
           fnmatch pat' n ||
           match n with
           | EmptyString => false
           | String _ n' => star n'
           end) name
      else
        match name with
        | EmptyString => false
        | String d name' => Ascii.eqb c d && fnmatch pat' name'
        end
  end.

Fixpoint match_parts (pats names : list string) : bool :=
  match pats, names with
  | [], [] => true
  | p :: pats', n :: names' => fnmatch p n && match_parts pats' names'
  | _, _ => false
  end.

(** [dir.glob(pattern)] over the regular files below [dir], which are
    given by their components relative to [dir]: the files whose
    components match the components of the pattern one by one. Directories
    are not entries of the tree. *)
Definition glob (files : list (list string)) (pattern : string) : list (list string) :=
  List.filter (match_parts (split_slash pattern)) files.

End Pathlib.

(** ** The configuration object *)

Module Config.
Import Pathlib.

(** The fields of [CheriConfig] that the two files read. *)
Record CheriConfig : Type := mkConfig {
  sdkDir : Path;
  pretend : bool;
  clangPath : option Path;
  clangPlusPlusPath : option Path
}.

End Config.

Declare Scope py_scope.
Delimit Scope py_scope with py.
Notation "x <- m ;; k" := (Py.mbind m (fun x => k))
  (at level 100, m at next level, right associativity) : py_scope.
Notation "m ;;; k" := (Py.mbind m (fun _ => k))
  (at level 100, right associativity) : py_scope.

(** ** [projects/llvm.py] *)

Module LLVM.
Import Py Pathlib Config.

(** What the code observes of the host: the platform flag of [utils],
    the contents of [/etc/os-release] when that is a file, and the bytes
    a command writes to its standard error. *)
Record Host : Type := mkHost {
  IS_FREEBSD : bool;
  os_release : option string;
  runCmd_stderr : list string -> string
}.

(** A [BuildLLVM] object: [cCompiler] and [cppCompiler] are [None] when
    the configuration found no compiler. *)
Record BuildLLVM : Type := mkBuildLLVM {
  config : CheriConfig;
  cCompiler : option Path;
  cppCompiler : option Path;
  installDir : Path
}.

(** [BuildLLVM.__init__], the compiler fields. *)
Definition BuildLLVM_init (cfg : CheriConfig) (inst : Path) : BuildLLVM :=
  {| config := cfg;
     cCompiler := clangPath cfg;
     cppCompiler := clangPlusPlusPath cfg;
     installDir := inst |}.

(** Modelled from the spec: [Project.dependencyError] is not among the
    sources; a dependency failure is fatal to the build of the project,
    so the call raises and carries its arguments. *)
Definition dependencyError {A : Type} (args : list string)
    (installInstructions : option string) : result A :=
  raise (DependencyError args installInstructions).

(** Modelled from the spec: [utils.fatalError] is not among the sources;
    a fatal error ends the step in progress, so the call raises. *)
Definition fatalError {S A : Type} (args : list string) : M S A :=
  mraise (FatalError args).

Definition truthy {A : Type} (o : option A) : bool :=
  match o with Some _ => true | None => false end.

Definition str_opt (o : option Path) : string :=
  match o with Some p => str p | None => "None" end.

(** [clang37InstallHint]. *)
Definition ubuntuHint : string :=
  "Try following the instructions on http://askubuntu.com/questions/735201/installing-clang-3-8-on-ubuntu-14-04-3:"
  +:+ newline +:+
  "            wget -O - http://llvm.org/apt/llvm-snapshot.gpg.key|sudo apt-key add -"
  +:+ newline +:+
  "            sudo apt-add-repository " +:+ dquote +:+
  "deb http://llvm.org/apt/trusty/ llvm-toolchain-trusty-3.7 main" +:+ dquote
  +:+ newline +:+
  "            sudo apt-get update"
  +:+ newline +:+
  "            sudo apt-get install clang-3.7".

Definition clang37InstallHint (host : Host) : string :=
  if IS_FREEBSD host then "Try running `pkg install clang37`"
  else
    let osRelease := match os_release host with Some t => t | None => EmptyString end in
    if str_in "Ubuntu" osRelease then ubuntuHint
    else "Try installing clang 3.7 or newer using your system package manager".

(** The groups of [versionPattern], which is
    [clang version (\d+)\.(\d+)\.?(\d+)?], matched at the start of [s].
    Each [\d+] is greedy; the last dot and the last group are optional,
    and a last group without digits does not take part in the match. *)
Definition versionPattern_match (s : string) : option (string * string * option string) :=
  match strip_prefix "clang version " s with
  | None => None
  | Some r0 =>
      let '(d1, r1) := span_digits r0 in
      if nonempty d1 then
        match strip_prefix "." r1 with
        | None => None
        | Some r2 =>
            let '(d2, r3) := span_digits r2 in
            if nonempty d2 then
              let r4 := match strip_prefix "." r3 with Some r => r | None => r3 end in
              let '(d3, _) := span_digits r4 in
              Some (d1, d2, if nonempty d3 then Some d3 else None)
            else None
        end
      else None
  end.

(** [versionPattern] matches somewhere in [text]: the optional dot and
    the optional last group match the empty text as well, so a match is
    an occurrence of [clang version], a number, a dot and a number. *)
Definition versionPattern_matches (text : string) : Prop :=
  exists pre d1 d2 post,
    number d1 /\ number d2 /\
    text = pre +:+ "clang version " +:+ d1 +:+ "." +:+ d2 +:+ post.

(** [versionPattern.search(s)]: the match at the leftmost position. *)
Fixpoint versionPattern_search (s : string) : option (string * string * option string) :=
  match versionPattern_match s with
  | Some g => Some g
  | None =>
      match s with
      | EmptyString => None
      | String _ s' => versionPattern_search s'
      end
  end.

(** [tuple(map(int, match.groups())) if match else (0, 0, 0)]. *)
Definition versionComponents_of (m : option (string * string * option string)) : result (Z * Z * Z) :=
  match m with
  | Some (g1, g2, g3) =>
      bind (int_of_group (Some g1)) (fun a =>
      bind (int_of_group (Some g2)) (fun b =>
      bind (int_of_group g3) (fun c => ret (a, b, c))))
  | None => ret (0, 0, 0)
  end.

Definition tooOldMessage : string := "is too old. Version 3.7 or newer is required.".

(** [checkClangVersion]. *)
Definition checkClangVersion (host : Host) (self : BuildLLVM) (major minor patch : Z)
    (installInstructions : option string) : result unit :=
  bind (if negb (truthy (cCompiler self)) || negb (truthy (cppCompiler self))
        then dependencyError ["Could not find clang"] installInstructions
        else ret tt) (fun _ =>
  let versionTuple := (major, minor, patch) in
  let versionString := runCmd_stderr host [str_opt (cCompiler self); "-v"] in
  let match_ := versionPattern_search versionString in
  bind (versionComponents_of match_) (fun versionComponents =>
  if tuple_lt versionComponents versionTuple then
    let '(a, b, c) := versionComponents in
    let versionStr := join "." [str_of_int a; str_of_int b; str_of_int c] in
    dependencyError [str_opt (cCompiler self); "version"; versionStr; tooOldMessage]
                    (Some (clang37InstallHint host))
  else ret tt)).

Section Base.
(** The methods of the base class [CMakeProject], which is not part of
    these two files. *)
Variable CMakeProject_checkSystemDependencies : result unit.

(** [BuildLLVM.checkSystemDependencies]. *)
Definition BuildLLVM_checkSystemDependencies (host : Host) (self : BuildLLVM) : result unit :=
  bind CMakeProject_checkSystemDependencies (fun _ =>
  checkClangVersion host self 3 7 0 (Some (clang37InstallHint host))).

(** [BuildLLD.checkSystemDependencies]. *)
Definition BuildLLD_checkSystemDependencies (host : Host) (self : BuildLLVM) : result unit :=
  bind CMakeProject_checkSystemDependencies (fun _ =>
  checkClangVersion host self 3 8 0 None).
End Base.

(** *** The install step *)

(** What the install step does to the outside: console output, removed
    files and the requests for tool symlinks. *)
Inductive event : Type :=
| Print (msg : string)
| PrintCommand_rm (file : Path)
| CreateBuildtoolTargetSymlinks (tool : Path).

(** The regular files below [installDir], each by its components relative
    to [installDir], and the log of events. *)
Record World : Type := mkWorld {
  files : gset (list string);
  log : list event
}.

Definition emit (e : event) : M World unit :=
  modify (fun w => {| files := files w; log := log w ++ [e] |}).

(** [i.unlink()] for a file [i] below [installDir]. *)
Definition unlink (dir : Path) (i : list string) : M World unit :=
  fun w =>
    if bool_decide (i ∈ files w)
    then (inr tt, {| files := files w ∖ {[ i ]}; log := log w |})
    else (inl (FileNotFoundError (str (joinpath dir (mkPath false i)))), w).

(** [installDir.glob(pattern)] in the current tree. *)
Definition installDir_glob (pattern : string) : M World (list (list string)) :=
  gets (fun w => glob (elements (files w)) pattern).

Definition incompatible_std : string := "lib/clang/*/include/std*".
Definition incompatible_limits : string := "lib/clang/*/include/limits.h".

Definition llvmBinaries : list string :=
  ["clang"; "clang++"; "llvm-mc"; "llvm-objdump"; "llvm-readobj"; "llvm-size"; "llc"].

(** The loop over [incompatibleFiles]. *)
Fixpoint remove_incompatible (self : BuildLLVM) (l : list (list string)) : M World unit :=
  match l with
  | [] => mret tt
  | i :: l' =>
      (emit (PrintCommand_rm (joinpath (installDir self) (mkPath false i))) ;;;
       (if negb (pretend (config self)) then unlink (installDir self) i else mret tt) ;;;
       remove_incompatible self l')%py
  end.

(** The loop over [llvmBinaries]; [createBuildtoolTargetSymlinks] belongs
    to the base class and is recorded as an event. *)
Fixpoint link_tools (self : BuildLLVM) (l : list string) : M World unit :=
  match l with
  | [] => mret tt
  | tool :: l' =>
      (emit (CreateBuildtoolTargetSymlinks (div (div (installDir self) "bin") tool)) ;;;
       link_tools self l')%py
  end.

Section BaseInstall.
(** [CMakeProject.install], the generic install step of the base class. *)
Variable CMakeProject_install : M World unit.

(** [BuildLLVM.install]. *)
Definition install (self : BuildLLVM) : M World unit :=
  (CMakeProject_install ;;;
   std <- installDir_glob incompatible_std ;;
   lim <- installDir_glob incompatible_limits ;;
   let incompatibleFiles := std ++ lim in
   (if Nat.eqb (length incompatibleFiles) 0
    then fatalError ["Could not find incompatible builtin includes. Build system changed?"]
    else mret tt) ;;;
   emit (Print "Removing incompatible builtin includes...") ;;;
   remove_incompatible self incompatibleFiles ;;;
   link_tools self llvmBinaries)%py.
End BaseInstall.

(** The list [incompatibleFiles] that [install] computes in the tree [fs]. *)
Definition incompatibleFiles (fs : gset (list string)) : list (list string) :=
  glob (elements fs) incompatible_std ++ glob (elements fs) incompatible_limits.

(** *** The configure arguments *)

(** The further fields of [CheriConfig] that [BuildLLVM.__init__] reads. *)
Record ToolchainConfig : Type := mkToolchainConfig {
  cheriBits : Z;
  sdkSysrootDir : Path
}.

(** [BuildLLVM.__init__], the list [configureArgs]: [base] is what
    [CMakeProject.__init__] has put there. A compiler that was not found
    is passed on as [str(None)]. *)
Definition BuildLLVM_configureArgs (host : Host) (tc : ToolchainConfig) (self : BuildLLVM)
    (base : list string) : list string :=
  let configureArgs := base ++ ["-DCMAKE_CXX_COMPILER=" +:+ str_opt (cppCompiler self)] in
  let configureArgs := configureArgs ++ ["-DCMAKE_C_COMPILER=" +:+ str_opt (cCompiler self)] in
  let configureArgs :=
    configureArgs ++ ["-DLLVM_TOOL_LLDB_BUILD=OFF";
                      "-DCLANG_ENABLE_STATIC_ANALYZER=OFF";
                      "-DCLANG_ENABLE_ARCMT=OFF"] in
  let configureArgs :=
    if IS_FREEBSD host
    then (configureArgs ++ ["-DDEFAULT_SYSROOT=" +:+ str (sdkSysrootDir tc)])
           ++ ["-DLLVM_DEFAULT_TARGET_TRIPLE=cheri-unknown-freebsd"]
    else configureArgs in
  if cheriBits tc =? 128
  then configureArgs ++ ["-DLLVM_CHERI_IS_128=ON"]
  else configureArgs.

(** [BuildLLD.__init__], the list [configureArgs]. *)
Definition BuildLLD_configureArgs (host : Host) (tc : ToolchainConfig) (self : BuildLLVM)
    (base : list string) : list string :=
  BuildLLVM_configureArgs host tc self base ++ ["-DLLVM_TOOL_LLD_BUILD=ON"].

End LLVM.

(** ** [projects/cross/crosscompileproject.py] *)

Module Cross.
Import Py Pathlib Config.

(** What [Project.__init__] and [setupConfigOptions] hand to a
    cross-compile project: the configuration, the install directory, the
    name of the build target ([Project.target]), the options declared in
    [setupConfigOptions], and the rootfs directory that
    [BuildCHERIBSD.rootfsDir(config)] returns. *)
Record Options : Type := mkOptions {
  config : CheriConfig;
  installDir : Path;
  target : string;
  targetArch : string;
  noUseMxgot : bool;
  linker : string;
  linkDynamic : bool;
  optimizationFlags : list string;
  rootfsDir : Path
}.

(** The fields that [CrossCompileProject.__init__] sets. *)
Record CrossCompileProject : Type := mkProject {
  options : Options;
  installPrefix : Path;
  destdir : Path;
  targetTriple : string;
  sdkBinDir : Path;
  sdkSysroot : Path;
  compilerDir : Path;
  COMMON_FLAGS : list string;
  CFLAGS : list string;
  CXXFLAGS : list string;
  ASMFLAGS : list string
}.

Definition warningFlags : list string :=
  ["-Wall"; "-Werror=cheri-capability-misuse"; "-Werror=implicit-function-declaration";
   "-Werror=format"; "-Werror=undefined-internal"; "-Werror=incompatible-pointer-types"].

Definition baselineFlags : list string :=
  ["-integrated-as"; "-pipe"; "-msoft-float"; "-G0"; "-g"].

(** [CrossCompileProject.__init__]. *)
Definition CrossCompileProject_init (o : Options) : result CrossCompileProject :=
  bind (relative_to (installDir o) (rootfsDir o)) (fun rel =>
  let installPrefix := joinpath (of_str "/") rel in
  let destdir := rootfsDir o in
  let targetTriple := targetArch o +:+ "-unknown-freebsd" in
  let sdkBinDir := div (sdkDir (config o)) "bin" in
  let sdkSysroot := div (sdkDir (config o)) "sysroot" in
  let compilerDir := sdkBinDir in
  let COMMON_FLAGS := baselineFlags in
  let COMMON_FLAGS :=
    if String.eqb (targetArch o) "cheri" then COMMON_FLAGS ++ ["-mabi=sandbox"] else COMMON_FLAGS in
  let COMMON_FLAGS :=
    if negb (noUseMxgot o) then COMMON_FLAGS ++ ["-mxgot"] else COMMON_FLAGS in
  ret {| options := o;
         installPrefix := installPrefix;
         destdir := destdir;
         targetTriple := targetTriple;
         sdkBinDir := sdkBinDir;
         sdkSysroot := sdkSysroot;
         compilerDir := compilerDir;
         COMMON_FLAGS := COMMON_FLAGS;
         CFLAGS := [];
         CXXFLAGS := [];
         ASMFLAGS := [] |}).

(** The property [LDFLAGS]. The emulation is chosen by [self.target]. *)
Definition LDFLAGS (self : CrossCompileProject) : list string :=
  let emulation :=
    if String.eqb (target (options self)) "cheri"
    then "elf64btsmip_cheri_fbsd" else "elf64btsmip_fbsd" in
  let result := ["-Wl,-m" +:+ emulation;
                 "-fuse-ld=" +:+ linker (options self);
                 "--sysroot=" +:+ str (sdkSysroot self);
                 "-B" +:+ str (sdkBinDir self)] in
  if negb (linkDynamic (options self)) then result ++ ["-static"] else result.

(** The options with the [no-use-mxgot] option set to [b]. *)
Definition with_noUseMxgot (b : bool) (o : Options) : Options :=
  {| config := config o; installDir := installDir o; target := target o;
     targetArch := targetArch o; noUseMxgot := b; linker := linker o;
     linkDynamic := linkDynamic o; optimizationFlags := optimizationFlags o;
     rootfsDir := rootfsDir o |}.

(** *** [CrossCompileCMakeProject] *)

(** A keyword argument of [_prepareToolchainFile]: a list of strings, or
    a value that [str] turns into text. *)
Inductive value : Type :=
| VList (l : list string)
| VStr (s : string)
| VPath (p : Path).

(** [" ".join(value) if isinstance(value, list) else str(value)]. *)
Definition strval (v : value) : string :=
  match v with
  | VList l => join " " l
  | VStr s => s
  | VPath p => str p
  end.

Definition placeholder (key : string) : string := "@" +:+ key +:+ "@".

(** A [CrossCompileCMakeProject]: the project, the template text read
    from [files/CheriBSDToolchain.cmake.in], the path of the toolchain
    file, and the files written so far by [writeFile]. *)
Record CMakeObject : Type := mkCMake {
  cm_project : CrossCompileProject;
  cmakeTemplate : string;
  toolchainFile : Path;
  written : list (Path * string)
}.

Definition set_cm_project (p : CrossCompileProject) (self : CMakeObject) : CMakeObject :=
  {| cm_project := p; cmakeTemplate := cmakeTemplate self;
     toolchainFile := toolchainFile self; written := written self |}.

(** [writeFile(contents, file, overwrite=True)]. *)
Definition writeFile (contents : string) (file : Path) : M CMakeObject unit :=
  modify (fun self =>
    {| cm_project := cm_project self; cmakeTemplate := cmakeTemplate self;
       toolchainFile := toolchainFile self;
       written := written self ++ [(file, contents)] |}).

(** The loop of [_prepareToolchainFile] over [kwargs.items()]: the
    assertion looks for the placeholder in the text as replaced so far. *)
Fixpoint substitute (configuredTemplate : string) (kwargs : list (string * value)) : result string :=
  match kwargs with
  | [] => ret configuredTemplate
  | (key, v) :: kwargs' =>
      if str_in (placeholder key) configuredTemplate
      then substitute (replace (placeholder key) (strval v) configuredTemplate) kwargs'
      else raise (AssertionError (Some key))
  end.

(** The text after every key of [kwargs] has been replaced, in order. *)
Definition subst_all (kwargs : list (string * value)) (template : string) : string :=
  fold_left (fun text kv => replace (placeholder (fst kv)) (strval (snd kv)) text)
            kwargs template.

(** Every key of [kwargs] finds its placeholder in the text as replaced by
    the keys before it. *)
Fixpoint all_found (template : string) (kwargs : list (string * value)) : bool :=
  match kwargs with
  | [] => true
  | (key, v) :: kwargs' =>
      str_in (placeholder key) template &&
      all_found (replace (placeholder key) (strval v) template) kwargs'
  end.

(** [_prepareToolchainFile]. *)
Definition _prepareToolchainFile (kwargs : list (string * value)) : M CMakeObject unit :=
  fun self =>
    match substitute (cmakeTemplate self) kwargs with
    | inl e => (inl e, self)
    | inr configuredTemplate =>
        if str_in "@" configuredTemplate
        then (inl (AssertionError (Some configuredTemplate)), self)
        else writeFile configuredTemplate (toolchainFile self) self
    end.

Definition append_common (extra : list string) (p : CrossCompileProject) : CrossCompileProject :=
  {| options := options p; installPrefix := installPrefix p; destdir := destdir p;
     targetTriple := targetTriple p; sdkBinDir := sdkBinDir p; sdkSysroot := sdkSysroot p;
     compilerDir := compilerDir p; COMMON_FLAGS := COMMON_FLAGS p ++ extra;
     CFLAGS := CFLAGS p; CXXFLAGS := CXXFLAGS p; ASMFLAGS := ASMFLAGS p |}.

Section CMakeBase.
(** [CMakeProject.configure], the configure step of the base class. *)
Variable CMakeProject_configure : M CMakeObject unit.

(** [CrossCompileCMakeProject.configure]. *)
Definition CMake_configure : M CMakeObject unit :=
  (modify (fun self =>
     set_cm_project (append_common ["-B" +:+ str (sdkBinDir (cm_project self))] (cm_project self)) self) ;;;
   p <- gets cm_project ;;
   _prepareToolchainFile
     [("TOOLCHAIN_SDK_BINDIR", VPath (sdkBinDir p));
      ("TOOLCHAIN_SYSROOT", VPath (sdkSysroot p));
      ("TOOLCHAIN_COMPILER_BINDIR", VPath (compilerDir p));
      ("TOOLCHAIN_TARGET_TRIPLE", VStr (targetTriple p));
      ("TOOLCHAIN_COMMON_FLAGS", VList (COMMON_FLAGS p));
      ("TOOLCHAIN_C_FLAGS", VList (CFLAGS p));
      ("TOOLCHAIN_LINKER_FLAGS", VList (LDFLAGS p));
      ("TOOLCHAIN_CXX_FLAGS", VList (CXXFLAGS p));
      ("TOOLCHAIN_ASM_FLAGS", VList (ASMFLAGS p))] ;;;
   CMakeProject_configure)%py.
End CMakeBase.

(** *** [CrossCompileAutotoolsProject] *)

(** A [CrossCompileAutotoolsProject]: the project and the dictionary
    [configureEnvironment] of the base class. *)
Record AutotoolsObject : Type := mkAutotools {
  at_project : CrossCompileProject;
  configureEnvironment : gmap string string
}.

Definition setenv (key val : string) : M AutotoolsObject unit :=
  modify (fun self =>
    {| at_project := at_project self;
       configureEnvironment := <[ key := val ]> (configureEnvironment self) |}).

(** The loop [for key in (...): assert key not in self.configureEnvironment]. *)
Fixpoint assert_unset (keys : list string) : M AutotoolsObject unit :=
  match keys with
  | [] => mret tt
  | key :: keys' =>
      fun self =>
        match configureEnvironment self !! key with
        | Some _ => (inl (AssertionError None), self)
        | None => assert_unset keys' self
        end
  end.

Definition checkedKeys : list string := ["CFLAGS"; "CXXFLAGS"; "CPPFLAGS"; "LDFLAGS"].

(** The keys that [configure] writes. *)
Definition writtenKeys : list string :=
  ["CC"; "CXX"; "CPPFLAGS"; "CFLAGS"; "CXXFLAGS"; "LDFLAGS"].

Section AutotoolsBase.
(** [AutotoolsProject.configure], the configure step of the base class. *)
Variable AutotoolsProject_configure : M AutotoolsObject unit.

(** [CrossCompileAutotoolsProject.configure]; the [print] of the
    environment changes nothing and is left out. *)
Definition Autotools_configure : M AutotoolsObject unit :=
  (modify (fun self =>
     {| at_project :=
          append_common ["--sysroot=" +:+ str (sdkSysroot (at_project self));
                         "-B" +:+ str (sdkBinDir (at_project self));
                         "-target"; targetTriple (at_project self)] (at_project self);
        configureEnvironment := configureEnvironment self |}) ;;;
   p <- gets at_project ;;
   let CPPFLAGS := COMMON_FLAGS p ++ warningFlags ++ optimizationFlags (options p) in
   assert_unset checkedKeys ;;;
   setenv "CC" (str (div (compilerDir p) (targetTriple p +:+ "-clang"))) ;;;
   setenv "CXX" (str (div (compilerDir p) (targetTriple p +:+ "-clang++"))) ;;;
   setenv "CPPFLAGS" (join " " CPPFLAGS) ;;;
   setenv "CFLAGS" (join " " (CPPFLAGS ++ CFLAGS p)) ;;;
   setenv "CXXFLAGS" (join " " (CPPFLAGS ++ CXXFLAGS p)) ;;;
   setenv "LDFLAGS" (join " " (LDFLAGS p)) ;;;
   AutotoolsProject_configure)%py.
End AutotoolsBase.

(** The object when [configure] reaches the assertions: [COMMON_FLAGS] has
    been extended, the environment is as the caller left it. *)
Definition extended (self : AutotoolsObject) : AutotoolsObject :=
  {| at_project :=
       append_common ["--sysroot=" +:+ str (sdkSysroot (at_project self));
                      "-B" +:+ str (sdkBinDir (at_project self));
                      "-target"; targetTriple (at_project self)] (at_project self);
     configureEnvironment := configureEnvironment self |}.

(** The object that [configure] hands on to the base class when the
    assertions hold. *)
Definition derived (self : AutotoolsObject) : AutotoolsObject :=
  let p := at_project (extended self) in
  let CPPFLAGS := COMMON_FLAGS p ++ warningFlags ++ optimizationFlags (options p) in
  {| at_project := p;
     configureEnvironment :=
       <[ "LDFLAGS" := join " " (LDFLAGS p) ]>
       (<[ "CXXFLAGS" := join " " (CPPFLAGS ++ CXXFLAGS p) ]>
       (<[ "CFLAGS" := join " " (CPPFLAGS ++ CFLAGS p) ]>
       (<[ "CPPFLAGS" := join " " CPPFLAGS ]>
       (<[ "CXX" := str (div (compilerDir p) (targetTriple p +:+ "-clang++")) ]>
       (<[ "CC" := str (div (compilerDir p) (targetTriple p +:+ "-clang")) ]>
          (configureEnvironment self)))))) |}.

(** *** The default install directory *)

(** [c.lower()] for an ASCII character. *)
Definition lower_ascii (c : ascii) : ascii :=
  let n := nat_of_ascii c in
  if Nat.leb 65 n && Nat.leb n 90 then ascii_of_nat (n + 32) else c.

(** [s.lower()] for an ASCII text, as the names of projects are. *)
Fixpoint lower (s : string) : string :=
  match s with
  | EmptyString => EmptyString
  | String c s' => String (lower_ascii c) (lower s')
  end.

(** The function of [installToCheriBSDRootfs]:
    [Path(rootfs / "extra" / project.projectName.lower())]. *)
Definition installToCheriBSDRootfs (rootfs : Path) (projectName : string) : Path :=
  div (div rootfs "extra") (lower projectName).

(** *** Templates given by their pieces *)

(** A template written piece by piece: a piece is a literal text followed
    by the placeholder of a key, which comes with its value; [last] is the
    literal text behind the last placeholder. *)
Fixpoint render (pieces : list (string * string * value)) (last : string) : string :=
  match pieces with
  | [] => last
  | (lit, key, _) :: pieces' => lit +:+ placeholder key +:+ render pieces' last
  end.

(** The same text with every placeholder replaced by the value of its key. *)
Fixpoint filled (pieces : list (string * string * value)) (last : string) : string :=
  match pieces with
  | [] => last
  | (lit, _, v) :: pieces' => lit +:+ strval v +:+ filled pieces' last
  end.

(** The keyword arguments of the pieces, in the order of the template. *)
Definition kwargs_of (pieces : list (string * string * value)) : list (string * value) :=
  List.map (fun piece => (snd (fst piece), snd piece)) pieces.

(** No literal and no value holds an [@], and no placeholder comes back
    behind its piece. *)
Fixpoint well_formed (pieces : list (string * string * value)) (last : string) : bool :=
  match pieces with
  | [] => negb (str_in "@" last)
  | (lit, key, v) :: pieces' =>
      negb (str_in "@" lit) && negb (str_in "@" (strval v)) &&
      negb (str_in (placeholder key) (render pieces' last)) &&
      well_formed pieces' last
  end.

(** The keyword arguments that [CrossCompileCMakeProject.configure] hands
    to [_prepareToolchainFile]. *)
Definition toolchain_kwargs (p : CrossCompileProject) : list (string * value) :=
  [("TOOLCHAIN_SDK_BINDIR", VPath (sdkBinDir p));
   ("TOOLCHAIN_SYSROOT", VPath (sdkSysroot p));
   ("TOOLCHAIN_COMPILER_BINDIR", VPath (compilerDir p));
   ("TOOLCHAIN_TARGET_TRIPLE", VStr (targetTriple p));
   ("TOOLCHAIN_COMMON_FLAGS", VList (COMMON_FLAGS p));
   ("TOOLCHAIN_C_FLAGS", VList (CFLAGS p));
   ("TOOLCHAIN_LINKER_FLAGS", VList (LDFLAGS p));
   ("TOOLCHAIN_CXX_FLAGS", VList (CXXFLAGS p));
   ("TOOLCHAIN_ASM_FLAGS", VList (ASMFLAGS p))].

(** The object when [CrossCompileCMakeProject.configure] calls
    [_prepareToolchainFile]: [COMMON_FLAGS] has the flag [-B] appended. *)
Definition with_bindir_flag (self : CMakeObject) : CMakeObject :=
  set_cm_project
    (append_common ["-B" +:+ str (sdkBinDir (cm_project self))] (cm_project self)) self.

(** *** [CrossCompileAutotoolsProject.__init__] *)

(** [s.index(".")]: the position of the first dot, [None] when there is
    none and [index] raises. *)
Fixpoint index_dot (s : string) : option nat :=
  match s with
  | EmptyString => None
  | String c s' =>
      if Ascii.eqb c "." then Some O
      else match index_dot s' with
           | Some i => Some (S i)
           | None => None
           end
  end.

(** The build host: [release] is [os.uname().release]. *)
Definition buildhost (is_freebsd : bool) (release : string) : result string :=
  if is_freebsd then
    match index_dot release with
    | Some i => ret ("x86_64-unknown-freebsd" +:+ String.substring 0 i release)
    | None => raise (ValueError "substring not found")
    end
  else ret "x86_64-unknown-linux-gnu".

(** [CrossCompileAutotoolsProject.__init__], the list [configureArgs]:
    [base] is what the constructors of the base classes have put there. *)
Definition Autotools_configureArgs (is_freebsd : bool) (release : string)
    (p : CrossCompileProject) (base : list string) : result (list string) :=
  bind (buildhost is_freebsd release) (fun buildhost =>
  ret (base ++ ["--host=" +:+ targetTriple p; "--target=" +:+ targetTriple p;
                "--build=" +:+ buildhost])).

End Cross.

(** ** Sample objects *)

Module Samples.
Import Py Pathlib Config.

Definition clang : Path := of_str "/usr/bin/clang".
Definition clangxx : Path := of_str "/usr/bin/clang++".
Definition sdk : Path := of_str "/build/sdk".

Definition cheriConfig (dryRun : bool) : CheriConfig :=
  mkConfig sdk dryRun (Some clang) (Some clangxx).

Definition llvm : LLVM.BuildLLVM := LLVM.BuildLLVM_init (cheriConfig false) sdk.

Definition llvm_pretend : LLVM.BuildLLVM := LLVM.BuildLLVM_init (cheriConfig true) sdk.

Definition tree_with_headers : LLVM.World :=
  LLVM.mkWorld
    (list_to_set [["lib"; "clang"; "3.8.0"; "include"; "stddef.h"];
                  ["lib"; "clang"; "3.8.0"; "include"; "limits.h"];
                  ["lib"; "clang"; "3.8.0"; "include"; "float.h"];
                  ["bin"; "clang"]])
    [].

Definition tree_without_headers : LLVM.World :=
  LLVM.mkWorld (list_to_set [["lib"; "libLLVMCore.a"]; ["bin"; "clang"]]) [].

(** The states in which [install] leaves the tree with headers, with
    pretend mode off and on. *)
Definition tree_cleaned : LLVM.World :=
  Eval vm_compute in snd (LLVM.install (Py.mret tt) llvm tree_with_headers).

Definition tree_pretended : LLVM.World :=
  Eval vm_compute in snd (LLVM.install (Py.mret tt) llvm_pretend tree_with_headers).

Definition host_no_banner : LLVM.Host :=
  LLVM.mkHost false None (fun _ => "clang: command line banner missing").

Definition host_clang_3_7_1 : LLVM.Host :=
  LLVM.mkHost false None (fun _ => "clang version 3.7.1 (tags/RELEASE_371/final)").

Definition rootfs : Path := of_str "/build/rootfs".

(** The project [libcxx] for the architecture [cheri], installed below the
    rootfs. *)
Definition libcxx_options : Cross.Options :=
  Cross.mkOptions (cheriConfig false) (of_str "/build/rootfs/extra/libcxx") "libcxx"
                  "cheri" false "lld" false ["-O0"] rootfs.

(** The same project with an install directory outside the rootfs. *)
Definition stray_options : Cross.Options :=
  Cross.mkOptions (cheriConfig false) (of_str "/opt/libcxx") "libcxx"
                  "cheri" false "lld" false ["-O0"] rootfs.

Definition libcxx : Cross.CrossCompileProject :=
  match Cross.CrossCompileProject_init libcxx_options with
  | inr p => p
  | inl _ =>
      Cross.mkProject libcxx_options rootfs rootfs EmptyString sdk sdk sdk [] [] [] []
  end.

Definition autotools (env : gmap string string) : Cross.AutotoolsObject :=
  Cross.mkAutotools libcxx env.

Definition autotools_fresh : Cross.AutotoolsObject := autotools ∅.
Definition autotools_CC : Cross.AutotoolsObject := autotools {[ "CC" := "gcc" ]}.
Definition autotools_CFLAGS : Cross.AutotoolsObject := autotools {[ "CFLAGS" := "-O2" ]}.

Definition cmake (template : string) : Cross.CMakeObject :=
  Cross.mkCMake libcxx template (of_str "/build/libcxx-build/CheriBSDToolchain.cmake") [].

(** A toolchain template with the nine placeholders. *)
Definition toolchain_template : string :=
  "set(SDK @TOOLCHAIN_SDK_BINDIR@) set(SYSROOT @TOOLCHAIN_SYSROOT@) set(CC @TOOLCHAIN_COMPILER_BINDIR@/clang) set(TRIPLE @TOOLCHAIN_TARGET_TRIPLE@) set(COMMON @TOOLCHAIN_COMMON_FLAGS@) set(C @TOOLCHAIN_C_FLAGS@) set(LD @TOOLCHAIN_LINKER_FLAGS@) set(CXX @TOOLCHAIN_CXX_FLAGS@) set(ASM @TOOLCHAIN_ASM_FLAGS@)".

Definition nested_kwargs : list (string * Cross.value) :=
  [("A", Cross.VStr "@B@"); ("B", Cross.VStr "x")].

Definition plain_kwargs : list (string * Cross.value) :=
  [("A", Cross.VStr "x"); ("B", Cross.VList ["y"; "z"])].

End Samples.

(** * Properties *)

(** ** Strings *)

Section StringFacts.
Import Py.

Lemma sapp_cons (a : ascii) (s t : string) : String a s +:+ t = String a (s +:+ t).
Proof. reflexivity. Qed.

Lemma sapp_nil_l (t : string) : EmptyString +:+ t = t.
Proof. reflexivity. Qed.

Lemma sapp_nil_r (s : string) : s +:+ EmptyString = s.
Proof. induction s as [|a s IH]; [reflexivity|]. rewrite sapp_cons, IH. reflexivity. Qed.

Lemma sapp_assoc (s t u : string) : (s +:+ t) +:+ u = s +:+ (t +:+ u).
Proof. induction s as [|a s IH]; [reflexivity|]. rewrite !sapp_cons, IH. reflexivity. Qed.

Lemma strip_prefix_sound (p s r : string) : strip_prefix p s = Some r -> s = p +:+ r.
Proof.
  revert s. induction p as [|a p IH]; intros s H; simpl in H.
  - injection H as ->. reflexivity.
  - destruct s as [|b s]; [discriminate|].
    destruct (Ascii.eqb_spec a b) as [->|]; [|discriminate].
    rewrite sapp_cons. f_equal. apply IH, H.
Qed.

Lemma strip_prefix_app (p r : string) : strip_prefix p (p +:+ r) = Some r.
Proof.
  induction p as [|a p IH]; [reflexivity|].
  rewrite sapp_cons. simpl. rewrite Ascii.eqb_refl. apply IH.
Qed.

Lemma startswith_app (p r : string) : startswith p (p +:+ r) = true.
Proof. unfold startswith. rewrite strip_prefix_app. reflexivity. Qed.

Lemma startswith_sound (p s : string) : startswith p s = true -> exists r, s = p +:+ r.
Proof.
  unfold startswith. destruct (strip_prefix p s) as [r|] eqn:E; [|discriminate].
  intros _. exists r. apply strip_prefix_sound, E.
Qed.

(** [str_in] is the occurrence of [needle] as a block of [hay]. *)
Lemma str_in_iff (needle hay : string) :
  str_in needle hay = true <-> exists pre post, hay = pre +:+ needle +:+ post.
Proof.
  split.
  - induction hay as [|c hay IH]; simpl; intros H.
    + apply orb_true_iff in H as [H|H]; [|discriminate].
      apply startswith_sound in H as [r ->]. exists EmptyString, r. reflexivity.
    + apply orb_true_iff in H as [H|H].
      * apply startswith_sound in H as [r ->]. exists EmptyString, r. reflexivity.
      * destruct (IH H) as (pre & post & ->). exists (String c pre), post. reflexivity.
  - intros (pre & post & ->). induction pre as [|c pre IH].
    + rewrite sapp_nil_l. destruct (needle +:+ post) eqn:E; simpl; rewrite <- E;
        rewrite startswith_app; reflexivity.
    + rewrite sapp_cons. simpl. rewrite IH. apply orb_true_r.
Qed.

Lemma span_digits_sound (s d r : string) :
  span_digits s = (d, r) -> s = d +:+ r /\ all_digits d = true.
Proof.
  revert d r. induction s as [|c s IH]; intros d r H; simpl in H.
  - injection H as <- <-. split; reflexivity.
  - destruct (is_digit c) eqn:Hc.
    + destruct (span_digits s) as [d' r'] eqn:E. injection H as <- <-.
      destruct (IH d' r' eq_refl) as [-> Hd]. split; [reflexivity|].
      simpl. rewrite Hc, Hd. reflexivity.
    + injection H as <- <-. split; reflexivity.
Qed.

(** A run of digits in front is taken whole by the greedy [\d+]. *)
Lemma span_digits_app (d r : string) :
  all_digits d = true ->
  span_digits (d +:+ r) = (d +:+ fst (span_digits r), snd (span_digits r)).
Proof.
  induction d as [|c d IH]; intros H.
  - rewrite !sapp_nil_l. destruct (span_digits r); reflexivity.
  - simpl in H. apply andb_true_iff in H as [Hc Hd].
    rewrite !sapp_cons. simpl. rewrite Hc, (IH Hd). reflexivity.
Qed.

Lemma nonempty_app_l (s t : string) : nonempty s = true -> nonempty (s +:+ t) = true.
Proof. destruct s; [discriminate|reflexivity]. Qed.

End StringFacts.

(** ** The version gate *)

Section VersionGate.
Import Py Pathlib Config LLVM.

Lemma versionPattern_match_sound (s g1 g2 : string) (g3 : option string) :
  versionPattern_match s = Some (g1, g2, g3) ->
  number g1 /\ number g2 /\ exists post, s = "clang version " +:+ g1 +:+ "." +:+ g2 +:+ post.
Proof.
  unfold versionPattern_match.
  destruct (strip_prefix "clang version " s) as [r0|] eqn:E0; [|discriminate].
  destruct (span_digits r0) as [d1 r1] eqn:E1.
  destruct (nonempty d1) eqn:N1; [|discriminate].
  destruct (strip_prefix "." r1) as [r2|] eqn:E2; [|discriminate].
  destruct (span_digits r2) as [d2 r3] eqn:E3.
  destruct (nonempty d2) eqn:N2; [|discriminate].
  destruct (span_digits (match strip_prefix "." r3 with Some r => r | None => r3 end))
    as [d3 r5]. intros H. injection H as <- <- _.
  apply strip_prefix_sound in E0, E2.
  apply span_digits_sound in E1 as [-> D1], E3 as [-> D2]. subst.
  repeat split; try assumption. exists r3. reflexivity.
Qed.

Lemma versionPattern_search_sound (text : string) g :
  versionPattern_search text = Some g -> versionPattern_matches text.
Proof.
  induction text as [|c text IH]; simpl.
  - destruct (versionPattern_match EmptyString) as [[[g1 g2] g3]|] eqn:E; [|discriminate].
    intros _. apply versionPattern_match_sound in E as (N1 & N2 & post & E).
    exists EmptyString, g1, g2, post. auto.
  - destruct (versionPattern_match (String c text)) as [[[g1 g2] g3]|] eqn:E.
    + intros _. apply versionPattern_match_sound in E as (N1 & N2 & post & E).
      exists EmptyString, g1, g2, post. auto.
    + intros H. destruct (IH H) as (pre & d1 & d2 & post & N1 & N2 & ->).
      exists (String c pre), d1, d2, post. auto.
Qed.

Lemma versionPattern_match_complete (d1 d2 post : string) :
  number d1 -> number d2 ->
  versionPattern_match ("clang version " +:+ d1 +:+ "." +:+ d2 +:+ post) <> None.
Proof.
  intros [N1 D1] [N2 D2]. unfold versionPattern_match.
  rewrite strip_prefix_app, (span_digits_app _ _ D1).
  change (span_digits ("." +:+ d2 +:+ post)) with (EmptyString, "." +:+ d2 +:+ post).
  cbn [fst snd]. rewrite (nonempty_app_l _ _ N1), strip_prefix_app.
  rewrite (span_digits_app _ _ D2). rewrite (nonempty_app_l _ _ N2).
  destruct (span_digits _). discriminate.
Qed.

Lemma versionPattern_search_here (s : string) :
  versionPattern_match s <> None -> versionPattern_search s <> None.
Proof.
  intros H. destruct (versionPattern_match s) eqn:E; [|congruence].
  destruct s; cbn [versionPattern_search]; rewrite E; discriminate.
Qed.

Lemma versionPattern_search_complete (text : string) :
  versionPattern_matches text -> versionPattern_search text <> None.
Proof.
  intros (pre & d1 & d2 & post & N1 & N2 & ->).
  pose proof (versionPattern_match_complete d1 d2 post N1 N2) as Hm.
  apply versionPattern_search_here in Hm.
  induction pre as [|c pre IH]; [exact Hm|].
  rewrite sapp_cons. cbn [versionPattern_search].
  destruct (versionPattern_match _); [discriminate|exact IH].
Qed.

Lemma versionPattern_search_None (text : string) :
  versionPattern_search text = None <-> ~ versionPattern_matches text.
Proof.
  split.
  - intros H Hm. exact (versionPattern_search_complete _ Hm H).
  - intros H. destruct (versionPattern_search text) eqn:E; [|reflexivity].
    exfalso. apply H. eapply versionPattern_search_sound, E.
Qed.

(** A match whose last group did not take part makes the conversion of
    the groups, and with it the whole check, raise [TypeError]. *)
Lemma checkClangVersion_group_missing (host : Host) (self : BuildLLVM) (cc cxx : Path)
    (g1 g2 : string) (major minor patch : Z) (hint : option string) :
  cCompiler self = Some cc ->
  cppCompiler self = Some cxx ->
  versionPattern_search (runCmd_stderr host [str cc; "-v"]) = Some (g1, g2, None) ->
  exists msg, checkClangVersion host self major minor patch hint = inl (TypeError msg).
Proof.
  intros Hc Hx Hs. unfold checkClangVersion. rewrite Hc, Hx.
  cbn [truthy negb orb bind ret str_opt]. rewrite Hs.
  eexists. reflexivity.
Qed.

(** C1. For the probe text [clang version 3.9] the pattern matches with
    the groups 3 and 9 and a last group that is [None]; [int(None)] then
    raises [TypeError], so [checkClangVersion] against (3,7,0) does not
    return, whereas for [clang version 3.9.0] it does. *)
Theorem checkClangVersion_patch_omitted_TypeError :
  forall (freebsd : bool) (rel : option string) (cfg : CheriConfig) (cc cxx inst : Path)
         (hint : option string),
    versionPattern_search "clang version 3.9" = Some ("3", "9", None) /\
    checkClangVersion (mkHost freebsd rel (fun _ => "clang version 3.9"))
        (mkBuildLLVM cfg (Some cc) (Some cxx) inst) 3 7 0 hint
      = inl (TypeError "int() argument must be a string, a bytes-like object or a number, not 'NoneType'") /\
    checkClangVersion (mkHost freebsd rel (fun _ => "clang version 3.9.0"))
        (mkBuildLLVM cfg (Some cc) (Some cxx) inst) 3 7 0 hint
      = inr tt.
Proof. intros. repeat split. Qed.

(** C9. When the pattern matches nowhere in the probe text, the found
    version is (0,0,0), and against every required version above (0,0,0)
    the gate raises the too-old dependency error for version 0.0.0. *)
Theorem checkClangVersion_no_match_TooOld :
  forall (host : Host) (self : BuildLLVM) (cc cxx : Path) (major minor patch : Z)
         (hint : option string),
    cCompiler self = Some cc ->
    cppCompiler self = Some cxx ->
    ~ versionPattern_matches (runCmd_stderr host [str cc; "-v"]) ->
    tuple_lt (0, 0, 0) (major, minor, patch) = true ->
    versionComponents_of (versionPattern_search (runCmd_stderr host [str cc; "-v"])) = inr (0, 0, 0) /\
    checkClangVersion host self major minor patch hint =
      inl (DependencyError [str cc; "version"; "0.0.0"; tooOldMessage]
                           (Some (clang37InstallHint host))).
Proof.
  intros host self cc cxx major minor patch hint Hc Hx Hno Hlt.
  apply versionPattern_search_None in Hno.
  unfold checkClangVersion. rewrite Hc, Hx. cbn [truthy negb orb bind ret str_opt].
  rewrite Hno. cbn [versionComponents_of bind ret]. rewrite Hlt.
  split; reflexivity.
Qed.

Lemma checkClangVersion_no_match_TooOld_witness :
  versionComponents_of
    (versionPattern_search (runCmd_stderr Samples.host_no_banner [str Samples.clang; "-v"]))
    = inr (0, 0, 0) /\
  checkClangVersion Samples.host_no_banner Samples.llvm 3 7 0 None =
    inl (DependencyError [str Samples.clang; "version"; "0.0.0"; tooOldMessage]
                         (Some (clang37InstallHint Samples.host_no_banner))).
Proof.
  apply (checkClangVersion_no_match_TooOld Samples.host_no_banner Samples.llvm
           Samples.clang Samples.clangxx 3 7 0 None);
    [reflexivity | reflexivity | | reflexivity].
  apply versionPattern_search_None. vm_compute. reflexivity.
Defined.

(** The too-old error that [checkClangVersion] raises for the found
    version [v]. *)
Lemma checkClangVersion_found (host : Host) (self : BuildLLVM) (cc cxx : Path)
    (g1 g2 g3 : string) (major minor patch : Z) (hint : option string) :
  cCompiler self = Some cc ->
  cppCompiler self = Some cxx ->
  versionPattern_search (runCmd_stderr host [str cc; "-v"]) = Some (g1, g2, Some g3) ->
  checkClangVersion host self major minor patch hint =
    if tuple_lt (int_of_digits g1, int_of_digits g2, int_of_digits g3) (major, minor, patch)
    then inl (DependencyError
                [str cc; "version";
                 join "." [str_of_int (int_of_digits g1); str_of_int (int_of_digits g2);
                           str_of_int (int_of_digits g3)];
                 tooOldMessage]
                (Some (clang37InstallHint host)))
    else inr tt.
Proof.
  intros Hc Hx Hs. unfold checkClangVersion. rewrite Hc, Hx.
  cbn [truthy negb orb bind ret str_opt]. rewrite Hs.
  cbn [versionComponents_of int_of_group bind ret].
  destruct (tuple_lt _ _); reflexivity.
Qed.

Lemma clang37InstallHint_names_3_7 (host : Host) :
  str_in "3.7" (clang37InstallHint host) || str_in "clang37" (clang37InstallHint host) = true.
Proof.
  unfold clang37InstallHint. destruct (IS_FREEBSD host); [reflexivity|].
  destruct (str_in "Ubuntu" _); reflexivity.
Qed.

(** C10. With the base check passed and a three-component version found,
    [BuildLLD.checkSystemDependencies] returns exactly when the found
    version is not below (3,8,0) and [BuildLLVM.checkSystemDependencies]
    exactly when it is not below (3,7,0); (3,7,0) is below (3,8,0); both
    raise the same too-old error, whose message names version 3.7 and
    whose remediation text is [clang37InstallHint]. *)
Theorem BuildLLD_requires_clang_3_8 :
  forall (host : Host) (self : BuildLLVM) (cc cxx : Path) (g1 g2 g3 : string),
    cCompiler self = Some cc ->
    cppCompiler self = Some cxx ->
    versionPattern_search (runCmd_stderr host [str cc; "-v"]) = Some (g1, g2, Some g3) ->
    BuildLLD_checkSystemDependencies (inr tt) host self =
      (if tuple_lt (int_of_digits g1, int_of_digits g2, int_of_digits g3) (3, 8, 0)
       then inl (DependencyError
                   [str cc; "version";
                    join "." [str_of_int (int_of_digits g1); str_of_int (int_of_digits g2);
                              str_of_int (int_of_digits g3)];
                    tooOldMessage]
                   (Some (clang37InstallHint host)))
       else inr tt) /\
    BuildLLVM_checkSystemDependencies (inr tt) host self =
      (if tuple_lt (int_of_digits g1, int_of_digits g2, int_of_digits g3) (3, 7, 0)
       then inl (DependencyError
                   [str cc; "version";
                    join "." [str_of_int (int_of_digits g1); str_of_int (int_of_digits g2);
                              str_of_int (int_of_digits g3)];
                    tooOldMessage]
                   (Some (clang37InstallHint host)))
       else inr tt) /\
    tuple_lt (3, 7, 0) (3, 8, 0) = true /\
    str_in "Version 3.7 or newer" tooOldMessage = true /\
    str_in "3.7" (clang37InstallHint host) || str_in "clang37" (clang37InstallHint host) = true.
Proof.
  intros host self cc cxx g1 g2 g3 Hc Hx Hs.
  unfold BuildLLD_checkSystemDependencies, BuildLLVM_checkSystemDependencies.
  cbn [bind].
  rewrite !(checkClangVersion_found host self cc cxx g1 g2 g3 _ _ _ _ Hc Hx Hs).
  repeat split. apply clang37InstallHint_names_3_7.
Qed.

Lemma BuildLLD_requires_clang_3_8_witness :
  BuildLLD_checkSystemDependencies (inr tt) Samples.host_clang_3_7_1 Samples.llvm =
    inl (DependencyError [str Samples.clang; "version"; "3.7.1"; tooOldMessage]
                         (Some (clang37InstallHint Samples.host_clang_3_7_1))) /\
  BuildLLVM_checkSystemDependencies (inr tt) Samples.host_clang_3_7_1 Samples.llvm = inr tt.
Proof.
  pose proof (BuildLLD_requires_clang_3_8 Samples.host_clang_3_7_1 Samples.llvm
                Samples.clang Samples.clangxx "3" "7" "1" eq_refl eq_refl eq_refl)
    as (Hlld & Hllvm & _).
  split; [exact Hlld | exact Hllvm].
Defined.

End VersionGate.

(** ** The install clean-up *)

Section InstallCleanup.
Import Py Pathlib Config LLVM.

Lemma fnmatch_std_not_limits (name : string) :
  fnmatch "std*" name = true -> fnmatch "limits.h" name = true -> False.
Proof.
  destruct name as [|c name]; [discriminate|].
  cbn [fnmatch]. change (Ascii.eqb "s" "*") with false. change (Ascii.eqb "l" "*") with false.
  cbv iota. intros H1 H2.
  apply andb_true_iff in H1 as [H1 _], H2 as [H2 _].
  apply Ascii.eqb_eq in H1, H2. congruence.
Qed.

Lemma glob_std_not_limits (f : list string) :
  match_parts (split_slash incompatible_std) f = true ->
  match_parts (split_slash incompatible_limits) f = true -> False.
Proof.
  change (split_slash incompatible_std) with ["lib"; "clang"; "*"; "include"; "std*"].
  change (split_slash incompatible_limits) with ["lib"; "clang"; "*"; "include"; "limits.h"].
  intros H1 H2.
  destruct f as [|a [|b [|c [|d [|e rest]]]]]; cbn [match_parts] in H1, H2;
    rewrite ?andb_false_r in H1; try discriminate H1.
  do 4 (apply andb_true_iff in H1 as [_ H1]).
  do 4 (apply andb_true_iff in H2 as [_ H2]).
  apply andb_true_iff in H1 as [H1 _], H2 as [H2 _].
  exact (fnmatch_std_not_limits e H1 H2).
Qed.

Lemma incompatibleFiles_NoDup (fs : gset (list string)) : NoDup (incompatibleFiles fs).
Proof.
  unfold incompatibleFiles, glob. apply NoDup_app. split; [|split].
  - apply NoDup_ListNoDup, List.NoDup_filter, NoDup_ListNoDup, NoDup_elements.
  - intros f H1 H2. apply list_elem_of_In, List.filter_In in H1 as [_ H1], H2 as [_ H2].
    exact (glob_std_not_limits f H1 H2).
  - apply NoDup_ListNoDup, List.NoDup_filter, NoDup_ListNoDup, NoDup_elements.
Qed.

Lemma incompatibleFiles_present (fs : gset (list string)) (f : list string) :
  f ∈ incompatibleFiles fs -> f ∈ fs.
Proof.
  unfold incompatibleFiles, glob. rewrite elem_of_app, !list_elem_of_In, !List.filter_In.
  rewrite <- !list_elem_of_In, !elem_of_elements. tauto.
Qed.

Lemma remove_incompatible_run (self : BuildLLVM) (l : list (list string)) (w : World) :
  NoDup l ->
  (forall f, f ∈ l -> f ∈ files w) ->
  exists w',
    remove_incompatible self l w = (inr tt, w') /\
    files w' = if pretend (config self) then files w else files w ∖ list_to_set l.
Proof.
  revert w. induction l as [|i l IH]; intros w Hnd Hin.
  - exists w. split; [reflexivity|]. destruct (pretend _); [reflexivity|].
    cbn [list_to_set foldr]. rewrite difference_empty_L. reflexivity.
  - apply NoDup_cons in Hnd as [Hi Hnd].
    cbn [remove_incompatible]. unfold mbind at 1. unfold emit at 1, modify at 1.
    unfold mbind at 1.
    destruct (pretend (config self)) eqn:Hp; cbn [negb].
    + unfold mret at 1.
      edestruct (IH {| files := files w;
                       log := log w ++ [PrintCommand_rm (joinpath (installDir self) (mkPath false i))] |})
        as (w' & Hr & Hf);
        [exact Hnd | intros f Hf; apply Hin, elem_of_cons; right; exact Hf |].
      exists w'. split; [exact Hr | exact Hf].
    + unfold unlink. cbn [files log].
      rewrite bool_decide_eq_true_2 by (apply Hin, elem_of_cons; left; reflexivity).
      edestruct (IH {| files := files w ∖ {[ i ]};
                       log := log w ++ [PrintCommand_rm (joinpath (installDir self) (mkPath false i))] |})
        as (w' & Hr & Hf).
      { exact Hnd. }
      { intros f Hf. cbn [files]. apply elem_of_difference. split.
        - apply Hin, elem_of_cons. right. exact Hf.
        - intros Hs. apply elem_of_singleton in Hs. subst f. contradiction. }
      exists w'. split; [exact Hr|]. rewrite Hf. cbn [files].
      rewrite list_to_set_cons. apply difference_difference_l_L.
Qed.

Lemma link_tools_run (self : BuildLLVM) (l : list string) (w : World) :
  exists w', link_tools self l w = (inr tt, w') /\ files w' = files w.
Proof.
  revert w. induction l as [|t l IH]; intros w.
  - exists w. split; reflexivity.
  - cbn [link_tools]. unfold mbind, emit, modify.
    destruct (IH {| files := files w;
                    log := log w ++ [CreateBuildtoolTargetSymlinks (div (div (installDir self) "bin") t)] |})
      as (w' & Hr & Hf).
    exists w'. split; [exact Hr | exact Hf].
Qed.

Lemma install_run (super : M World unit) (self : BuildLLVM) (w0 w1 : World) :
  super w0 = (inr tt, w1) ->
  install super self w0 =
    if Nat.eqb (length (incompatibleFiles (files w1))) 0
    then (inl (FatalError ["Could not find incompatible builtin includes. Build system changed?"]),
          w1)
    else mbind (remove_incompatible self (incompatibleFiles (files w1)))
               (fun _ => link_tools self llvmBinaries)
               {| files := files w1;
                  log := log w1 ++ [Print "Removing incompatible builtin includes..."] |}.
Proof.
  intros H.
  unfold install, mbind, installDir_glob, gets, emit, modify, mret, fatalError, mraise.
  rewrite H. cbv beta iota. fold (incompatibleFiles (files w1)).
  destruct (Nat.eqb (length (incompatibleFiles (files w1))) 0); reflexivity.
Qed.

(** C8. After the generic install step has returned, [install] raises the
    fatal error when the two patterns match no file of the installed tree,
    in pretend mode as well, and leaves the tree as it is; when a file
    matches, [install] returns, and the tree it leaves holds the files of
    the installed tree except, when pretend mode is off, the matched
    ones. *)
Theorem install_removes_incompatible_includes :
  forall (CMakeProject_install : M World unit) (self : BuildLLVM) (w0 w1 : World),
    CMakeProject_install w0 = (inr tt, w1) ->
    (incompatibleFiles (files w1) = [] ->
     install CMakeProject_install self w0 =
       (inl (FatalError ["Could not find incompatible builtin includes. Build system changed?"]),
        w1)) /\
    (incompatibleFiles (files w1) <> [] ->
     exists w2,
       install CMakeProject_install self w0 = (inr tt, w2) /\
       forall f, f ∈ files w2 <->
                 f ∈ files w1 /\
                 (pretend (config self) = true \/ f ∉ incompatibleFiles (files w1))).
Proof.
  intros super self w0 w1 Hsuper.
  rewrite (install_run super self w0 w1 Hsuper).
  split.
  - intros ->. reflexivity.
  - intros Hne.
    destruct (incompatibleFiles (files w1)) as [|i l] eqn:E; [congruence|].
    cbn [length Nat.eqb]. rewrite <- E. unfold mbind.
    destruct (remove_incompatible_run self (incompatibleFiles (files w1))
                {| files := files w1;
                   log := log w1 ++ [Print "Removing incompatible builtin includes..."] |})
      as (w' & Hr & Hf).
    { apply incompatibleFiles_NoDup. }
    { intros f. apply incompatibleFiles_present. }
    rewrite Hr. destruct (link_tools_run self llvmBinaries w') as (w2 & Hl & Hf2).
    exists w2. split; [exact Hl|].
    intros f. rewrite Hf2, Hf. cbn [files].
    destruct (pretend (config self)).
    + split; [intros H; split; [exact H | left; reflexivity] | intros [H _]; exact H].
    + rewrite elem_of_difference, elem_of_list_to_set. split.
      * intros [H1 H2]. split; [exact H1 | right; exact H2].
      * intros [H1 [H2|H2]]; [discriminate | split; assumption].
Qed.

Lemma install_removes_incompatible_includes_witness :
  install (mret tt) Samples.llvm_pretend Samples.tree_without_headers =
    (inl (FatalError ["Could not find incompatible builtin includes. Build system changed?"]),
     Samples.tree_without_headers) /\
  exists w2,
    install (mret tt) Samples.llvm Samples.tree_with_headers = (inr tt, w2) /\
    forall f, f ∈ files w2 <->
              f ∈ files Samples.tree_with_headers /\
              (pretend (config Samples.llvm) = true \/
               f ∉ incompatibleFiles (files Samples.tree_with_headers)).
Proof.
  split.
  - apply (proj1 (install_removes_incompatible_includes (mret tt) Samples.llvm_pretend
                    Samples.tree_without_headers Samples.tree_without_headers eq_refl)).
    vm_compute. reflexivity.
  - apply (proj2 (install_removes_incompatible_includes (mret tt) Samples.llvm
                    Samples.tree_with_headers Samples.tree_with_headers eq_refl)).
    vm_compute. discriminate.
Defined.

End InstallCleanup.

(** ** The toolchain path resolver and the flag composer *)

Section FlagComposer.
Import Py Pathlib Config Cross.

Lemma strip_parts_sound (pre l rest : list string) :
  strip_parts pre l = Some rest -> l = pre ++ rest.
Proof.
  revert l. induction pre as [|a pre IH]; intros l H; cbn [strip_parts] in H.
  - injection H as ->. reflexivity.
  - destruct l as [|b l]; [discriminate|].
    destruct (String.eqb_spec a b) as [->|]; [|discriminate].
    cbn [app]. f_equal. apply IH, H.
Qed.

Lemma strip_parts_app (pre rest : list string) : strip_parts pre (pre ++ rest) = Some rest.
Proof.
  induction pre as [|a pre IH]; [reflexivity|].
  cbn [app strip_parts]. rewrite String.eqb_refl. exact IH.
Qed.

(** [relative_to] returns exactly for the paths inside [other]. *)
Lemma relative_to_inside (self other : Path) (rel : list string) :
  self = joinpath other (mkPath false rel) ->
  relative_to self other = inr (mkPath false rel).
Proof.
  intros ->. unfold relative_to, joinpath. cbn [anchored parts].
  rewrite Bool.eqb_reflx, strip_parts_app. reflexivity.
Qed.

Lemma relative_to_returns (self other rel : Path) :
  relative_to self other = inr rel -> is_inside self other.
Proof.
  unfold relative_to. destruct (Bool.eqb_spec (anchored self) (anchored other)) as [Ha|];
    [|discriminate].
  destruct (strip_parts (parts other) (parts self)) as [rest|] eqn:E; [|discriminate].
  intros _. exists rest. apply strip_parts_sound in E.
  destruct self as [a ps]. cbn [anchored parts] in *. subst.
  reflexivity.
Qed.

Lemma relative_to_outside (self other : Path) :
  ~ is_inside self other -> exists msg, relative_to self other = inl (ValueError msg).
Proof.
  intros Hout. destruct (relative_to self other) as [e|rel] eqn:E.
  - revert E. unfold relative_to.
    destruct (Bool.eqb (anchored self) (anchored other));
      [destruct (strip_parts (parts other) (parts self))|];
      intros E; try discriminate; injection E as <-; eexists; reflexivity.
  - exfalso. apply Hout. exact (relative_to_returns _ _ _ E).
Qed.

(** C5. When the install directory is the rootfs directory followed by the
    components [rel], construction returns and [installPrefix] is [/]
    followed by [rel]; when the install directory is not inside the rootfs
    directory, construction fails with the [ValueError] that
    [Path.relative_to] raises, which is the configuration error of this
    step. *)
Theorem CrossCompileProject_init_installPrefix :
  forall (o : Options),
    (forall rel : list string,
        installDir o = joinpath (rootfsDir o) (mkPath false rel) ->
        exists p, CrossCompileProject_init o = inr p /\
                  installPrefix p = joinpath (of_str "/") (mkPath false rel)) /\
    (~ is_inside (installDir o) (rootfsDir o) ->
     exists msg, CrossCompileProject_init o = inl (ValueError msg)).
Proof.
  intros o. split.
  - intros rel H. unfold CrossCompileProject_init.
    rewrite (relative_to_inside _ _ rel H). cbn [bind ret].
    eexists. split; reflexivity.
  - intros H. destruct (relative_to_outside _ _ H) as [msg E].
    exists msg. unfold CrossCompileProject_init. rewrite E. reflexivity.
Qed.

Lemma CrossCompileProject_init_installPrefix_witness :
  (exists p, CrossCompileProject_init Samples.libcxx_options = inr p /\
             installPrefix p = of_str "/extra/libcxx") /\
  (exists msg, CrossCompileProject_init Samples.stray_options = inl (ValueError msg)).
Proof.
  split.
  - apply (proj1 (CrossCompileProject_init_installPrefix Samples.libcxx_options)
             ["extra"; "libcxx"]).
    reflexivity.
  - apply (proj2 (CrossCompileProject_init_installPrefix Samples.stray_options)).
    intros [rel H]. vm_compute in H. discriminate H.
Defined.

Lemma CrossCompileProject_init_COMMON (o : Options) (p : CrossCompileProject) :
  CrossCompileProject_init o = inr p ->
  options p = o /\
  COMMON_FLAGS p =
    baselineFlags ++
    (if String.eqb (targetArch o) "cheri" then ["-mabi=sandbox"] else []) ++
    (if noUseMxgot o then [] else ["-mxgot"]).
Proof.
  unfold CrossCompileProject_init.
  destruct (relative_to (installDir o) (rootfsDir o)) as [e|rel]; [discriminate|].
  cbn [bind ret]. intros H. injection H as <-. cbn [options COMMON_FLAGS].
  split; [reflexivity|].
  destruct (String.eqb (targetArch o) "cheri"), (noUseMxgot o); reflexivity.
Qed.

(** C6. After construction [COMMON_FLAGS] is the five baseline flags, then
    [-mabi=sandbox] exactly when the target architecture is [cheri], then
    [-mxgot] exactly when [no-use-mxgot] is not set: the ABI flag occurs
    once for [cheri] and not at all for [mips64], and setting
    [no-use-mxgot] takes the last flag [-mxgot] away and nothing else. *)
Theorem COMMON_FLAGS_after_init :
  forall (o : Options) (p : CrossCompileProject),
    CrossCompileProject_init o = inr p ->
    COMMON_FLAGS p =
      ["-integrated-as"; "-pipe"; "-msoft-float"; "-G0"; "-g"] ++
      (if String.eqb (targetArch o) "cheri" then ["-mabi=sandbox"] else []) ++
      (if noUseMxgot o then [] else ["-mxgot"]) /\
    (targetArch o = "cheri" ->
     length (List.filter (String.eqb "-mabi=sandbox") (COMMON_FLAGS p)) = 1%nat) /\
    (targetArch o = "mips64" ->
     length (List.filter (String.eqb "-mabi=sandbox") (COMMON_FLAGS p)) = 0%nat) /\
    (exists p_on p_off,
        CrossCompileProject_init (with_noUseMxgot false o) = inr p_on /\
        CrossCompileProject_init (with_noUseMxgot true o) = inr p_off /\
        COMMON_FLAGS p_on = COMMON_FLAGS p_off ++ ["-mxgot"] /\
        List.filter (String.eqb "-mxgot") (COMMON_FLAGS p_off) = []).
Proof.
  intros o p H. destruct (CrossCompileProject_init_COMMON o p H) as [_ Hc].
  split; [exact Hc|]. split; [|split].
  - intros Ha. rewrite Hc, Ha. destruct (noUseMxgot o); reflexivity.
  - intros Ha. rewrite Hc, Ha. destruct (noUseMxgot o); reflexivity.
  - revert H. unfold CrossCompileProject_init.
    cbn [with_noUseMxgot installDir rootfsDir targetArch noUseMxgot config].
    destruct (relative_to (installDir o) (rootfsDir o)) as [e|rel]; [discriminate|].
    cbn [bind ret negb]. intros _. do 2 eexists. split; [reflexivity|].
    split; [reflexivity|]. cbn [COMMON_FLAGS].
    split; [reflexivity|].
    destruct (String.eqb (targetArch o) "cheri"); reflexivity.
Qed.

Lemma COMMON_FLAGS_after_init_witness :
  COMMON_FLAGS Samples.libcxx =
    ["-integrated-as"; "-pipe"; "-msoft-float"; "-G0"; "-g"; "-mabi=sandbox"; "-mxgot"] /\
  length (List.filter (String.eqb "-mabi=sandbox") (COMMON_FLAGS Samples.libcxx)) = 1%nat.
Proof.
  pose proof (COMMON_FLAGS_after_init Samples.libcxx_options Samples.libcxx eq_refl)
    as (Hc & Hcheri & _).
  split; [exact Hc | exact (Hcheri eq_refl)].
Defined.

(** C2. [LDFLAGS] picks the emulation by the name of the build target
    ([self.target]) and not by the target architecture: the project
    [libcxx] built for [cheri] gets [-Wl,-melf64btsmip_fbsd] in front. The
    entries after it are the linker, the sysroot and the SDK binary
    directory, and [-static] closes the list exactly when dynamic linking
    was not requested. *)
Theorem LDFLAGS_emulation_by_target_name :
  targetArch (options Samples.libcxx) = "cheri" /\
  LDFLAGS Samples.libcxx =
    ["-Wl,-melf64btsmip_fbsd"; "-fuse-ld=lld"; "--sysroot=/build/sdk/sysroot";
     "-B/build/sdk/bin"; "-static"] /\
  forall p : CrossCompileProject,
    LDFLAGS p =
      [ "-Wl,-m" +:+ (if String.eqb (target (options p)) "cheri"
                      then "elf64btsmip_cheri_fbsd" else "elf64btsmip_fbsd");
        "-fuse-ld=" +:+ linker (options p);
        "--sysroot=" +:+ str (sdkSysroot p);
        "-B" +:+ str (sdkBinDir p) ] ++
      (if linkDynamic (options p) then [] else ["-static"]).
Proof.
  split; [reflexivity|]. split; [reflexivity|].
  intros p. unfold LDFLAGS. destruct (linkDynamic (options p)); reflexivity.
Qed.

End FlagComposer.

(** ** The environment deriver *)

Section EnvironmentDeriver.
Import Py Pathlib Config Cross.

Lemma assert_unset_pass (keys : list string) (self : AutotoolsObject) :
  (forall key, key ∈ keys -> configureEnvironment self !! key = None) ->
  assert_unset keys self = (inr tt, self).
Proof.
  induction keys as [|k keys IH]; intros H; [reflexivity|].
  cbn [assert_unset]. rewrite (H k) by (apply elem_of_cons; left; reflexivity).
  apply IH. intros key Hk. apply H, elem_of_cons. right. exact Hk.
Qed.

Lemma assert_unset_fail (keys : list string) (self : AutotoolsObject) (key : string) :
  key ∈ keys -> is_Some (configureEnvironment self !! key) ->
  assert_unset keys self = (inl (AssertionError None), self).
Proof.
  induction keys as [|k keys IH]; intros Hk Hs.
  - apply elem_of_nil in Hk. contradiction.
  - cbn [assert_unset]. destruct (configureEnvironment self !! k) as [v|] eqn:E; [reflexivity|].
    apply elem_of_cons in Hk as [->|Hk]; [|exact (IH Hk Hs)].
    rewrite E in Hs. destruct Hs as [v Hv]. discriminate.
Qed.

Lemma Autotools_configure_run (super : M AutotoolsObject unit) (self : AutotoolsObject) :
  Autotools_configure super self =
    match assert_unset checkedKeys (extended self) with
    | (inl e, s) => (inl e, s)
    | (inr _, _) => super (derived self)
    end.
Proof.
  unfold Autotools_configure.
  unfold mbind at 1. unfold modify at 1. fold (extended self).
  unfold mbind at 1. unfold gets at 1.
  unfold mbind at 1.
  destruct (assert_unset checkedKeys (extended self)) as [[e|[]] s] eqn:E; [reflexivity|].
  assert (s = extended self) as ->.
  { revert E. generalize checkedKeys. intros keys. induction keys as [|k keys IH];
      cbn [assert_unset]; [intros H; injection H as <-; reflexivity|].
    destruct (configureEnvironment (extended self) !! k); [discriminate|exact IH]. }
  reflexivity.
Qed.

Ltac env_lookup :=
  unfold derived; cbn [configureEnvironment];
  repeat (rewrite lookup_insert_ne by discriminate);
  rewrite lookup_insert_eq; reflexivity.

(** C3, as the code has it. [configure] asserts that none of [CFLAGS],
    [CXXFLAGS], [CPPFLAGS] and [LDFLAGS] is in the environment and, when
    one of these four is, fails before any key is written, leaving the
    environment as it was; [CC] and [CXX] are not checked: when the four
    flag keys are unset, [CC] and [CXX] are set to the two compilers
    whatever the environment held for them. *)
Theorem Autotools_configure_guards_flag_keys :
  forall (super : M AutotoolsObject unit) (self : AutotoolsObject),
    (forall key,
        key ∈ checkedKeys -> is_Some (configureEnvironment self !! key) ->
        exists self',
          Autotools_configure super self = (inl (AssertionError None), self') /\
          configureEnvironment self' = configureEnvironment self) /\
    ((forall key, key ∈ checkedKeys -> configureEnvironment self !! key = None) ->
     exists self',
       Autotools_configure super self = super self' /\
       configureEnvironment self' !! "CC" =
         Some (str (div (compilerDir (at_project self))
                        (targetTriple (at_project self) +:+ "-clang"))) /\
       configureEnvironment self' !! "CXX" =
         Some (str (div (compilerDir (at_project self))
                        (targetTriple (at_project self) +:+ "-clang++")))).
Proof.
  intros super self. rewrite Autotools_configure_run. split.
  - intros key Hk Hs. exists (extended self).
    rewrite (assert_unset_fail checkedKeys (extended self) key Hk Hs).
    split; reflexivity.
  - intros H. exists (derived self).
    rewrite (assert_unset_pass checkedKeys (extended self) H).
    split; [reflexivity|]. split; env_lookup.
Qed.

Lemma Autotools_configure_guards_flag_keys_witness :
  (exists self',
      Autotools_configure (mret tt) Samples.autotools_CFLAGS = (inl (AssertionError None), self') /\
      configureEnvironment self' = configureEnvironment Samples.autotools_CFLAGS) /\
  (exists self',
      Autotools_configure (mret tt) Samples.autotools_CC = mret tt self' /\
      configureEnvironment self' !! "CC" = Some "/build/sdk/bin/cheri-unknown-freebsd-clang" /\
      configureEnvironment self' !! "CXX" = Some "/build/sdk/bin/cheri-unknown-freebsd-clang++").
Proof.
  split.
  - apply (proj1 (Autotools_configure_guards_flag_keys (mret tt) Samples.autotools_CFLAGS)
             "CFLAGS").
    + vm_compute. apply list_elem_of_here.
    + exists "-O2". reflexivity.
  - apply (proj2 (Autotools_configure_guards_flag_keys (mret tt) Samples.autotools_CC)).
    intros key Hk. vm_compute in Hk.
    repeat (apply elem_of_cons in Hk as [->|Hk]; [reflexivity|]).
    apply elem_of_nil in Hk. contradiction.
Defined.

(** C3, as stated, fails for [CC]: with [CC] already set in the
    environment [configure] does not fail, and overwrites it. *)
Lemma Autotools_configure_CC_not_guarded :
  ~ (forall key,
        key ∈ writtenKeys ->
        is_Some (configureEnvironment Samples.autotools_CC !! key) ->
        exists e self',
          Autotools_configure (mret tt) Samples.autotools_CC = (inl e, self') /\
          configureEnvironment self' = configureEnvironment Samples.autotools_CC).
Proof.
  intros H.
  destruct (H "CC") as (e & self' & Heq & _).
  - apply list_elem_of_here.
  - exists "gcc". reflexivity.
  - rewrite Autotools_configure_run in Heq.
    rewrite assert_unset_pass in Heq; [discriminate Heq|].
    intros key Hk. vm_compute in Hk.
    repeat (apply elem_of_cons in Hk as [->|Hk]; [reflexivity|]).
    apply elem_of_nil in Hk. contradiction.
Qed.

(** C7. When the four flag keys are unset, [configure] appends the
    sysroot flag, the binary-directory flag and the two words of the
    explicit target to [COMMON_FLAGS], and hands on an environment in
    which [CPPFLAGS] is that list, the warning flags and the optimization
    flags joined by single spaces, [CFLAGS] and [CXXFLAGS] are the same
    list followed by the extra C and C++ flags, and [LDFLAGS] is the
    linker flags, each joined by single spaces in this order. *)
Theorem Autotools_configure_environment :
  forall (super : M AutotoolsObject unit) (self : AutotoolsObject),
    (forall key, key ∈ checkedKeys -> configureEnvironment self !! key = None) ->
    exists self',
      Autotools_configure super self = super self' /\
      COMMON_FLAGS (at_project self') =
        COMMON_FLAGS (at_project self) ++
        ["--sysroot=" +:+ str (sdkSysroot (at_project self));
         "-B" +:+ str (sdkBinDir (at_project self));
         "-target"; targetTriple (at_project self)] /\
      configureEnvironment self' !! "CPPFLAGS" =
        Some (join " " (COMMON_FLAGS (at_project self') ++ warningFlags ++
                        optimizationFlags (options (at_project self)))) /\
      configureEnvironment self' !! "CFLAGS" =
        Some (join " " ((COMMON_FLAGS (at_project self') ++ warningFlags ++
                         optimizationFlags (options (at_project self))) ++
                        CFLAGS (at_project self))) /\
      configureEnvironment self' !! "CXXFLAGS" =
        Some (join " " ((COMMON_FLAGS (at_project self') ++ warningFlags ++
                         optimizationFlags (options (at_project self))) ++
                        CXXFLAGS (at_project self))) /\
      configureEnvironment self' !! "LDFLAGS" =
        Some (join " " (LDFLAGS (at_project self))).
Proof.
  intros super self H. exists (derived self).
  rewrite Autotools_configure_run, (assert_unset_pass checkedKeys (extended self) H).
  split; [reflexivity|]. split; [reflexivity|].
  repeat split; env_lookup.
Qed.

Lemma Autotools_configure_environment_witness :
  exists self',
    Autotools_configure (mret tt) Samples.autotools_fresh = mret tt self' /\
    configureEnvironment self' !! "CPPFLAGS" =
      Some "-integrated-as -pipe -msoft-float -G0 -g -mabi=sandbox -mxgot --sysroot=/build/sdk/sysroot -B/build/sdk/bin -target cheri-unknown-freebsd -Wall -Werror=cheri-capability-misuse -Werror=implicit-function-declaration -Werror=format -Werror=undefined-internal -Werror=incompatible-pointer-types -O0" /\
    configureEnvironment self' !! "LDFLAGS" =
      Some "-Wl,-melf64btsmip_fbsd -fuse-ld=lld --sysroot=/build/sdk/sysroot -B/build/sdk/bin -static".
Proof.
  destruct (Autotools_configure_environment (mret tt) Samples.autotools_fresh)
    as (self' & Hrun & Hcommon & Hcpp & _ & _ & Hld).
  - intros key _. apply lookup_empty.
  - exists self'. split; [exact Hrun|]. split.
    + rewrite Hcpp, Hcommon. reflexivity.
    + rewrite Hld. reflexivity.
Defined.

End EnvironmentDeriver.

(** ** The toolchain template engine *)

Section TemplateEngine.
Import Py Pathlib Config Cross.

Lemma replace_go_skip (old new x post : string) :
  replace_go old new (String.length x) (x +:+ post) = replace_go old new O post.
Proof.
  induction x as [|c x IH]; [reflexivity|].
  rewrite sapp_cons. cbn [String.length replace_go]. exact IH.
Qed.

(** An occurrence of [old] in front is replaced, and the replacement goes
    on behind it. *)
Lemma replace_here (c : ascii) (old' new post : string) :
  replace (String c old') new (String c old' +:+ post) =
  new +:+ replace (String c old') new post.
Proof.
  unfold replace. rewrite sapp_cons. cbn [replace_go].
  rewrite <- sapp_cons, startswith_app. cbn [String.length Nat.pred].
  rewrite replace_go_skip. reflexivity.
Qed.

(** A text without [old] is left as it is. *)
Lemma replace_absent (old new text : string) :
  str_in old text = false -> replace old new text = text.
Proof.
  unfold replace. induction text as [|c text IH]; intros H; [reflexivity|].
  cbn [str_in] in H. apply orb_false_iff in H as [H1 H2].
  cbn [replace_go]. rewrite H1, (IH H2). reflexivity.
Qed.

(** The placeholder behind a text without [@] is the leftmost one: the
    value takes its place. *)
Lemma replace_placeholder (key val pre post : string) :
  str_in "@" pre = false ->
  replace (placeholder key) val (pre +:+ placeholder key +:+ post) =
  pre +:+ val +:+ replace (placeholder key) val post.
Proof.
  induction pre as [|a pre IH]; intros H.
  - rewrite !sapp_nil_l. unfold placeholder. rewrite sapp_cons. apply replace_here.
  - cbn [str_in] in H. apply orb_false_iff in H as [H1 H2].
    rewrite !sapp_cons. unfold replace in *. cbn [replace_go].
    assert (startswith (placeholder key) (String a (pre +:+ placeholder key +:+ post)) = false)
      as ->.
    { unfold startswith, placeholder in *. rewrite sapp_cons. cbn [strip_prefix] in *.
      destruct (Ascii.eqb "@" a); [discriminate H1 | reflexivity]. }
    rewrite (IH H2). reflexivity.
Qed.

Lemma subst_all_cons (key : string) (v : value) (kwargs : list (string * value))
    (template : string) :
  subst_all ((key, v) :: kwargs) template =
  subst_all kwargs (replace (placeholder key) (strval v) template).
Proof. reflexivity. Qed.

Lemma substitute_all_found (template : string) (kwargs : list (string * value)) :
  all_found template kwargs = true ->
  substitute template kwargs = inr (subst_all kwargs template).
Proof.
  revert template. induction kwargs as [|[key v] kwargs IH]; intros template H;
    [reflexivity|].
  cbn [all_found] in H. apply andb_true_iff in H as [H1 H2].
  cbn [substitute]. rewrite H1, subst_all_cons. apply IH, H2.
Qed.

Lemma substitute_missing (template : string) (done rest : list (string * value))
    (key : string) (v : value) :
  all_found template done = true ->
  str_in (placeholder key) (subst_all done template) = false ->
  substitute template (done ++ (key, v) :: rest) = inl (AssertionError (Some key)).
Proof.
  revert template. induction done as [|[k w] done IH]; intros template Hd Hk.
  - cbn [app substitute]. cbn in Hk. rewrite Hk. reflexivity.
  - cbn [all_found] in Hd. apply andb_true_iff in Hd as [H1 H2].
    cbn [app substitute]. rewrite H1. apply IH; [exact H2|].
    rewrite <- subst_all_cons. exact Hk.
Qed.

Lemma substitute_returns (template text : string) (kwargs : list (string * value)) :
  substitute template kwargs = inr text ->
  all_found template kwargs = true /\ text = subst_all kwargs template.
Proof.
  revert template. induction kwargs as [|[key v] kwargs IH]; intros template H.
  - injection H as <-. split; reflexivity.
  - cbn [substitute] in H. cbn [all_found].
    destruct (str_in (placeholder key) template); [|discriminate H].
    destruct (IH _ H) as [H1 H2]. split; [exact H1|]. rewrite subst_all_cons. exact H2.
Qed.

(** When a key finds no placeholder, there is a first such key. *)
Lemma all_found_false (template : string) (kwargs : list (string * value)) :
  all_found template kwargs = false ->
  exists done key v rest,
    kwargs = done ++ (key, v) :: rest /\
    all_found template done = true /\
    str_in (placeholder key) (subst_all done template) = false.
Proof.
  revert template. induction kwargs as [|[k w] kwargs IH]; intros template H;
    [discriminate|].
  cbn [all_found] in H. destruct (str_in (placeholder k) template) eqn:E.
  - cbn [andb] in H. destruct (IH _ H) as (done & key & v & rest & -> & Hd & Hk).
    exists ((k, w) :: done), key, v, rest. split; [reflexivity|]. split.
    + cbn [all_found]. rewrite E. exact Hd.
    + rewrite subst_all_cons. exact Hk.
  - exists [], k, w, kwargs. split; [reflexivity|]. split; [reflexivity|exact E].
Qed.

(** C4, as the code has it. The keys are taken in order. The engine fails
    with an assertion error naming the first key whose placeholder does not
    occur in the text as replaced so far; when every key finds its
    placeholder, it fails with an assertion error carrying the replaced
    text when that text holds an [@], and otherwise writes the replaced
    text, which holds no [@], to the toolchain file. One of the three
    happens. Each replacement puts the value where the placeholder stood:
    behind a text without [@] the value takes the place of the placeholder,
    and a text without the placeholder is left as it is. *)
Theorem prepareToolchainFile_outcome :
  forall (self : CMakeObject) (kwargs : list (string * value)),
    (forall done key v rest,
        kwargs = done ++ (key, v) :: rest ->
        all_found (cmakeTemplate self) done = true ->
        str_in (placeholder key) (subst_all done (cmakeTemplate self)) = false ->
        _prepareToolchainFile kwargs self = (inl (AssertionError (Some key)), self)) /\
    (all_found (cmakeTemplate self) kwargs = true ->
     str_in "@" (subst_all kwargs (cmakeTemplate self)) = true ->
     _prepareToolchainFile kwargs self =
       (inl (AssertionError (Some (subst_all kwargs (cmakeTemplate self)))), self)) /\
    (all_found (cmakeTemplate self) kwargs = true ->
     str_in "@" (subst_all kwargs (cmakeTemplate self)) = false ->
     exists self',
       _prepareToolchainFile kwargs self = (inr tt, self') /\
       written self' =
         written self ++ [(toolchainFile self, subst_all kwargs (cmakeTemplate self))]) /\
    (forall self',
        _prepareToolchainFile kwargs self = (inr tt, self') ->
        all_found (cmakeTemplate self) kwargs = true /\
        str_in "@" (subst_all kwargs (cmakeTemplate self)) = false /\
        written self' =
          written self ++ [(toolchainFile self, subst_all kwargs (cmakeTemplate self))]) /\
    (all_found (cmakeTemplate self) kwargs = false ->
     exists done key v rest,
       kwargs = done ++ (key, v) :: rest /\
       all_found (cmakeTemplate self) done = true /\
       str_in (placeholder key) (subst_all done (cmakeTemplate self)) = false) /\
    (forall key val pre post,
        str_in "@" pre = false ->
        replace (placeholder key) val (pre +:+ placeholder key +:+ post) =
        pre +:+ val +:+ replace (placeholder key) val post) /\
    (forall key val text,
        str_in (placeholder key) text = false ->
        replace (placeholder key) val text = text).
Proof.
  intros self kwargs.
  split; [|split; [|split; [|split; [|split; [|split]]]]].
  - intros done key v rest -> Hd Hk. unfold _prepareToolchainFile.
    rewrite (substitute_missing _ done rest key v Hd Hk). reflexivity.
  - intros Hf Hat. unfold _prepareToolchainFile.
    rewrite (substitute_all_found _ _ Hf), Hat. reflexivity.
  - intros Hf Hat. unfold _prepareToolchainFile.
    rewrite (substitute_all_found _ _ Hf), Hat.
    eexists. split; reflexivity.
  - intros self' H. unfold _prepareToolchainFile in H.
    destruct (substitute (cmakeTemplate self) kwargs) as [e|text] eqn:E; [discriminate H|].
    apply substitute_returns in E as [E ->]. split; [exact E|].
    destruct (str_in "@" _); [discriminate H|].
    split; [reflexivity|]. injection H as <-. reflexivity.
  - apply all_found_false.
  - intros key val pre post. apply replace_placeholder.
  - intros key val text. apply replace_absent.
Qed.

Lemma prepareToolchainFile_outcome_witness :
  _prepareToolchainFile Samples.plain_kwargs (Samples.cmake "set(X @A@) set(Y @C@)") =
    (inl (AssertionError (Some "B")), Samples.cmake "set(X @A@) set(Y @C@)") /\
  _prepareToolchainFile Samples.plain_kwargs (Samples.cmake "set(X @A@) set(Y @B@) @C@") =
    (inl (AssertionError (Some "set(X x) set(Y y z) @C@")),
     Samples.cmake "set(X @A@) set(Y @B@) @C@") /\
  (exists self',
      _prepareToolchainFile Samples.plain_kwargs (Samples.cmake "set(X @A@) set(Y @B@)") =
        (inr tt, self') /\
      written self' =
        [(toolchainFile (Samples.cmake "set(X @A@) set(Y @B@)"), "set(X x) set(Y y z)")]) /\
  replace (placeholder "A") "x" ("set(X " +:+ placeholder "A" +:+ ") set(Y @B@)") =
    "set(X " +:+ "x" +:+ replace (placeholder "A") "x" ") set(Y @B@)".
Proof.
  split; [|split; [|split]].
  - apply (proj1 (prepareToolchainFile_outcome (Samples.cmake "set(X @A@) set(Y @C@)")
                    Samples.plain_kwargs)
             [("A", VStr "x")] "B" (VList ["y"; "z"]) []); reflexivity.
  - apply (proj1 (proj2 (prepareToolchainFile_outcome
                           (Samples.cmake "set(X @A@) set(Y @B@) @C@") Samples.plain_kwargs)));
      reflexivity.
  - apply (proj1 (proj2 (proj2 (prepareToolchainFile_outcome
                                  (Samples.cmake "set(X @A@) set(Y @B@)")
                                  Samples.plain_kwargs))));
      reflexivity.
  - apply (proj1 (proj2 (proj2 (proj2 (proj2 (proj2 (prepareToolchainFile_outcome
                                  (Samples.cmake "set(X @A@) set(Y @B@)")
                                  Samples.plain_kwargs))))))).
    reflexivity.
Defined.

(** C4, as stated, fails when a value brings a placeholder along: the key
    [B] has no placeholder in the template [@A@], yet the engine does not
    fail for it; it writes the text [x], in which the value [@B@] of [A]
    is no longer found. *)
Lemma prepareToolchainFile_nested_placeholder :
  ~ (forall key v,
        (key, v) ∈ Samples.nested_kwargs ->
        (str_in (placeholder key) (cmakeTemplate (Samples.cmake "@A@")) = false ->
         exists self',
           _prepareToolchainFile Samples.nested_kwargs (Samples.cmake "@A@") =
             (inl (AssertionError (Some key)), self')) /\
        (forall self',
            _prepareToolchainFile Samples.nested_kwargs (Samples.cmake "@A@") = (inr tt, self') ->
            forall file text, (file, text) ∈ written self' -> str_in (strval v) text = true)).
Proof.
  intros H.
  destruct (H "B" (VStr "x")) as [Hfail _].
  - unfold Samples.nested_kwargs. apply elem_of_cons. right. apply list_elem_of_here.
  - destruct (Hfail eq_refl) as [self' Heq]. vm_compute in Heq. discriminate Heq.
Qed.

End TemplateEngine.

(** ** More on the version gate *)

Section VersionGateMore.
Import Py Pathlib Config LLVM.

(** [tuple_lt] is the lexicographic order of the three components. *)
Lemma tuple_lt_spec (a b c x y z : Z) :
  tuple_lt (a, b, c) (x, y, z) = true <->
  a < x \/ (a = x /\ (b < y \/ (b = y /\ c < z))).
Proof.
  unfold tuple_lt.
  rewrite !orb_true_iff, !andb_true_iff, !orb_true_iff, !andb_true_iff,
    !Z.ltb_lt, !Z.eqb_eq.
  tauto.
Qed.

Lemma tuple_lt_false_trans (u v w : Z * Z * Z) :
  tuple_lt u v = false -> tuple_lt v w = false -> tuple_lt u w = false.
Proof.
  destruct u as [[a b] c], v as [[x y] z], w as [[p q] r].
  rewrite <- !not_true_iff_false, !tuple_lt_spec. lia.
Qed.

(** [checkClangVersion] returns exactly when both compilers are there, the
    groups of the match convert, and the found version is not below the
    required one. *)
Lemma checkClangVersion_returns (host : Host) (self : BuildLLVM) (major minor patch : Z)
    (hint : option string) :
  checkClangVersion host self major minor patch hint = inr tt <->
  exists cc cxx found,
    cCompiler self = Some cc /\ cppCompiler self = Some cxx /\
    versionComponents_of (versionPattern_search (runCmd_stderr host [str cc; "-v"]))
      = inr found /\
    tuple_lt found (major, minor, patch) = false.
Proof.
  unfold checkClangVersion. split.
  - destruct (cCompiler self) as [cc|]; [|discriminate].
    destruct (cppCompiler self) as [cxx|]; [|discriminate].
    cbn [truthy negb orb bind ret str_opt].
    destruct (versionComponents_of _) as [e|found] eqn:E; [discriminate|].
    cbn [bind]. destruct (tuple_lt found (major, minor, patch)) eqn:L.
    + destruct found as [[a b] c]. discriminate.
    + intros _. exists cc, cxx, found. auto.
  - intros (cc & cxx & found & -> & -> & E & L).
    cbn [truthy negb orb bind ret str_opt]. rewrite E. cbn [bind]. rewrite L. reflexivity.
Qed.

(** X1. When one of the two compilers was not found, the gate raises the
    error [Could not find clang] with the install instructions of the
    caller, whatever the host prints and whatever version is required. *)
Theorem checkClangVersion_missing_compiler :
  forall (host : Host) (self : BuildLLVM) (major minor patch : Z) (hint : option string),
    cCompiler self = None \/ cppCompiler self = None ->
    checkClangVersion host self major minor patch hint =
      inl (DependencyError ["Could not find clang"] hint) /\
    BuildLLVM_checkSystemDependencies (inr tt) host self =
      inl (DependencyError ["Could not find clang"] (Some (clang37InstallHint host))) /\
    BuildLLD_checkSystemDependencies (inr tt) host self =
      inl (DependencyError ["Could not find clang"] None).
Proof.
  intros host self major minor patch hint H.
  assert (forall M m p h, checkClangVersion host self M m p h =
                          inl (DependencyError ["Could not find clang"] h)) as Hc.
  { intros M m p h. unfold checkClangVersion.
    destruct H as [-> | ->]; [reflexivity|].
    destruct (cCompiler self); reflexivity. }
  split; [apply Hc|]. split; apply Hc.
Qed.

Lemma checkClangVersion_missing_compiler_witness :
  checkClangVersion Samples.host_clang_3_7_1
    (mkBuildLLVM (Samples.cheriConfig false) (Some Samples.clang) None Samples.sdk) 3 7 0 None =
  inl (DependencyError ["Could not find clang"] None).
Proof.
  apply (checkClangVersion_missing_compiler Samples.host_clang_3_7_1
           (mkBuildLLVM (Samples.cheriConfig false) (Some Samples.clang) None Samples.sdk)
           3 7 0 None).
  right. reflexivity.
Defined.

(** X2. The gate is monotone in the requirement: a compiler that passes
    for a required version passes for every required version that is not
    above it, with any install instructions. *)
Theorem checkClangVersion_monotone :
  forall (host : Host) (self : BuildLLVM) (major minor patch major' minor' patch' : Z)
         (hint hint' : option string),
    tuple_lt (major, minor, patch) (major', minor', patch') = false ->
    checkClangVersion host self major minor patch hint = inr tt ->
    checkClangVersion host self major' minor' patch' hint' = inr tt.
Proof.
  intros host self M m p M' m' p' hint hint' Hle H.
  apply checkClangVersion_returns in H as (cc & cxx & found & Hc & Hx & E & L).
  apply checkClangVersion_returns. exists cc, cxx, found.
  repeat split; try assumption.
  exact (tuple_lt_false_trans _ _ _ L Hle).
Qed.

Lemma checkClangVersion_monotone_witness :
  checkClangVersion Samples.host_clang_3_7_1 Samples.llvm 3 6 2 None = inr tt.
Proof.
  apply (checkClangVersion_monotone Samples.host_clang_3_7_1 Samples.llvm
           3 7 0 3 6 2 (Some "hint") None); reflexivity.
Defined.

(** X3. A host that passes the dependency check of [BuildLLD] passes the
    one of [BuildLLVM]. *)
Theorem BuildLLD_check_implies_BuildLLVM_check :
  forall (base : result unit) (host : Host) (self : BuildLLVM),
    BuildLLD_checkSystemDependencies base host self = inr tt ->
    BuildLLVM_checkSystemDependencies base host self = inr tt.
Proof.
  intros base host self.
  unfold BuildLLD_checkSystemDependencies, BuildLLVM_checkSystemDependencies.
  destruct base as [e|[]]; [discriminate|]. cbn [bind]. intros H.
  apply checkClangVersion_returns in H as (cc & cxx & found & Hc & Hx & E & L).
  apply checkClangVersion_returns. exists cc, cxx, found.
  repeat split; try assumption.
  exact (tuple_lt_false_trans found (3, 8, 0) (3, 7, 0) L eq_refl).
Qed.

Lemma BuildLLD_check_implies_BuildLLVM_check_witness :
  BuildLLVM_checkSystemDependencies (inr tt)
    (mkHost false None (fun _ => "clang version 3.8.0 (tags/RELEASE_380/final)"))
    Samples.llvm = inr tt.
Proof.
  apply (BuildLLD_check_implies_BuildLLVM_check (inr tt)
           (mkHost false None (fun _ => "clang version 3.8.0 (tags/RELEASE_380/final)"))
           Samples.llvm).
  reflexivity.
Defined.

Ltac digit_values :=
  repeat match goal with
         | |- context [digit_value ?c] =>
             let v := eval vm_compute in (digit_value c) in
             change (digit_value c) with v
         end.

(** The digits that [str] prints are read back by [int]. *)
Lemma int_of_digits_go_pos (d : Decimal.uint) (acc : positive) :
  int_of_digits_go (Z.pos acc) (NilEmpty.string_of_uint d) = Z.pos (Pos.of_uint_acc d acc).
Proof.
  revert acc. induction d; intros acc;
    cbn [NilEmpty.string_of_uint int_of_digits_go Pos.of_uint_acc]; [reflexivity | ..].
  all: digit_values.
  all: match goal with
       | |- int_of_digits_go ?z _ = Z.pos (Pos.of_uint_acc _ ?q) =>
           replace z with (Z.pos q) by lia; apply IHd
       end.
Qed.

Lemma int_of_digits_go_zero (d : Decimal.uint) :
  int_of_digits_go 0 (NilEmpty.string_of_uint d) = Z.of_uint d.
Proof.
  unfold Z.of_uint.
  induction d; cbn [NilEmpty.string_of_uint int_of_digits_go Pos.of_uint];
    [reflexivity | exact IHd | ..].
  all: digit_values.
  all: match goal with
       | |- int_of_digits_go ?z _ = Z.of_N (N.pos (Pos.of_uint_acc _ ?q)) =>
           change z with (Z.pos q); apply int_of_digits_go_pos
       end.
Qed.

Lemma all_digits_uint (d : Decimal.uint) : all_digits (NilEmpty.string_of_uint d) = true.
Proof. induction d; cbn [NilEmpty.string_of_uint all_digits]; [reflexivity | exact IHd ..]. Qed.

Lemma str_of_int_digits (n : Z) :
  0 <= n ->
  number (str_of_int n) /\ int_of_digits (str_of_int n) = n.
Proof.
  intros Hn. unfold str_of_int, number, int_of_digits.
  assert (exists d, Z.to_int n = Decimal.Pos d /\ d <> Decimal.Nil) as (d & Hd & Hnil).
  { destruct n as [|p|p]; [eexists; split; [reflexivity|discriminate] | | lia].
    exists (Pos.to_uint p). split; [reflexivity|].
    apply DecimalPos.Unsigned.to_uint_nonnil. }
  pose proof (DecimalZ.of_to n) as Hof. rewrite Hd in *. cbn [Z.of_int] in Hof.
  cbn [NilZero.string_of_int].
  assert (NilZero.string_of_uint d = NilEmpty.string_of_uint d) as ->.
  { destruct d; [contradiction | reflexivity ..]. }
  split; [split|].
  - destruct d; [contradiction | reflexivity ..].
  - apply all_digits_uint.
  - rewrite int_of_digits_go_zero. exact Hof.
Qed.

Lemma versionPattern_search_found (s : string) g :
  versionPattern_match s = Some g -> versionPattern_search s = Some g.
Proof. intros H. destruct s; cbn [versionPattern_search]; rewrite H; reflexivity. Qed.

(** A text without the letter [c] in front of the banner holds no match. *)
Lemma versionPattern_search_skip (pre s : string) :
  str_in "c" pre = false ->
  versionPattern_search (pre +:+ s) = versionPattern_search s.
Proof.
  induction pre as [|x pre IH]; intros H; [reflexivity|].
  cbn [str_in] in H. apply orb_false_iff in H as [H1 H2].
  rewrite sapp_cons. cbn [versionPattern_search].
  assert (versionPattern_match (String x (pre +:+ s)) = None) as ->.
  { unfold versionPattern_match. cbn [strip_prefix].
    unfold startswith in H1. cbn [strip_prefix] in H1.
    destruct (Ascii.eqb "c" x); [discriminate H1 | reflexivity]. }
  exact (IH H2).
Qed.

Lemma span_digits_number (d r : string) :
  all_digits d = true -> fst (span_digits r) = EmptyString ->
  span_digits (d +:+ r) = (d, snd (span_digits r)).
Proof.
  intros Hd Hr. rewrite (span_digits_app _ _ Hd), Hr, sapp_nil_r. reflexivity.
Qed.

Lemma versionPattern_match_banner (d1 d2 d3 post : string) :
  number d1 -> number d2 -> number d3 ->
  fst (span_digits post) = EmptyString ->
  versionPattern_match ("clang version " +:+ d1 +:+ "." +:+ d2 +:+ "." +:+ d3 +:+ post)
    = Some (d1, d2, Some d3).
Proof.
  intros [N1 D1] [N2 D2] [N3 D3] Hp. unfold versionPattern_match.
  rewrite strip_prefix_app.
  rewrite (span_digits_number d1 _ D1) by reflexivity.
  change (snd (span_digits ("." +:+ d2 +:+ "." +:+ d3 +:+ post)))
    with ("." +:+ d2 +:+ "." +:+ d3 +:+ post).
  rewrite N1, strip_prefix_app.
  rewrite (span_digits_number d2 _ D2) by reflexivity.
  change (snd (span_digits ("." +:+ d3 +:+ post))) with ("." +:+ d3 +:+ post).
  rewrite N2, strip_prefix_app.
  rewrite (span_digits_number d3 _ D3 Hp), N3. reflexivity.
Qed.

(** X4. When the compiler prints [clang version a.b.c], behind a text
    without the letter [c] and in front of a text that does not start with
    a digit, the gate reads the version (a,b,c) back from the decimal
    digits: it returns exactly when (a,b,c) is not below the required
    version and otherwise reports the version as it was printed. *)
Theorem checkClangVersion_reads_printed_version :
  forall (host : Host) (self : BuildLLVM) (cc cxx : Path) (a b c : Z) (pre post : string)
         (major minor patch : Z) (hint : option string),
    cCompiler self = Some cc ->
    cppCompiler self = Some cxx ->
    0 <= a -> 0 <= b -> 0 <= c ->
    str_in "c" pre = false ->
    fst (span_digits post) = EmptyString ->
    runCmd_stderr host [str cc; "-v"] =
      pre +:+ "clang version " +:+ str_of_int a +:+ "." +:+ str_of_int b +:+ "." +:+
      str_of_int c +:+ post ->
    checkClangVersion host self major minor patch hint =
      if tuple_lt (a, b, c) (major, minor, patch)
      then inl (DependencyError
                  [str cc; "version";
                   str_of_int a +:+ "." +:+ str_of_int b +:+ "." +:+ str_of_int c;
                   tooOldMessage]
                  (Some (clang37InstallHint host)))
      else inr tt.
Proof.
  intros host self cc cxx a b c pre post major minor patch hint Hc Hx Ha Hb Hcc Hpre Hpost Ht.
  destruct (str_of_int_digits a Ha) as [Na Ia].
  destruct (str_of_int_digits b Hb) as [Nb Ib].
  destruct (str_of_int_digits c Hcc) as [Nc Ic].
  rewrite (checkClangVersion_found host self cc cxx (str_of_int a) (str_of_int b)
             (str_of_int c) major minor patch hint Hc Hx).
  - rewrite Ia, Ib, Ic. reflexivity.
  - rewrite Ht, (versionPattern_search_skip _ _ Hpre).
    apply versionPattern_search_found, versionPattern_match_banner; assumption.
Qed.

Lemma checkClangVersion_reads_printed_version_witness :
  checkClangVersion
    (mkHost true None (fun _ => "FreeBSD clang version 3.6.12 (tags/RELEASE)"))
    Samples.llvm 3 7 0 None =
  inl (DependencyError ["/usr/bin/clang"; "version"; "3.6.12"; tooOldMessage]
         (Some "Try running `pkg install clang37`")).
Proof.
  apply (checkClangVersion_reads_printed_version
           (mkHost true None (fun _ => "FreeBSD clang version 3.6.12 (tags/RELEASE)"))
           Samples.llvm Samples.clang Samples.clangxx 3 6 12 "FreeBSD " " (tags/RELEASE)"
           3 7 0 None); try reflexivity; lia.
Defined.

End VersionGateMore.

(** ** More on the install clean-up *)

Section InstallCleanupMore.
Import Py Pathlib Config LLVM.

Lemma fnmatch_star (name : string) : fnmatch "*" name = true.
Proof.
  cbn [fnmatch]. change (Ascii.eqb "*" "*") with true. cbv iota.
  induction name as [|c name IH]; [reflexivity|]. cbn [fnmatch nonempty negb orb]. exact IH.
Qed.

(** A pattern without [*] matches the one name that is equal to it. *)
Lemma fnmatch_literal (pat name : string) :
  str_in "*" pat = false -> fnmatch pat name = String.eqb pat name.
Proof.
  revert name. induction pat as [|c pat IH]; intros name H.
  - destruct name; reflexivity.
  - cbn [str_in] in H. apply orb_false_iff in H as [H1 H2].
    unfold startswith in H1. cbn [strip_prefix] in H1.
    cbn [fnmatch]. rewrite Ascii.eqb_sym.
    destruct (Ascii.eqb "*" c); [discriminate H1|].
    destruct name as [|d name]; [reflexivity|].
    cbn [String.eqb]. rewrite (IH name H2).
    destruct (Ascii.eqb c d); reflexivity.
Qed.

(** A pattern that ends in its only [*] matches the names that start with
    the text in front of the [*]. *)
Lemma fnmatch_prefix (p name : string) :
  str_in "*" p = false -> fnmatch (p +:+ "*") name = startswith p name.
Proof.
  revert name. induction p as [|c p IH]; intros name H.
  - rewrite sapp_nil_l. apply fnmatch_star.
  - cbn [str_in] in H. apply orb_false_iff in H as [H1 H2].
    unfold startswith in H1. cbn [strip_prefix] in H1.
    rewrite sapp_cons. cbn [fnmatch]. rewrite Ascii.eqb_sym.
    destruct (Ascii.eqb "*" c); [discriminate H1|].
    destruct name as [|d name]; [reflexivity|].
    rewrite (IH name H2). unfold startswith. cbn [strip_prefix].
    destruct (Ascii.eqb c d); reflexivity.
Qed.

(** The files that one of the two patterns of [install] matches: files
    of the form [lib/clang/<version>/include/<name>]. *)
Lemma match_parts_include (pat : string) (f : list string) :
  match_parts ["lib"; "clang"; "*"; "include"; pat] f = true <->
  exists version name,
    f = ["lib"; "clang"; version; "include"; name] /\ fnmatch pat name = true.
Proof.
  split.
  - destruct f as [|a [|b [|v [|d [|name [|x rest]]]]]]; cbn [match_parts];
      rewrite ?andb_false_r; try discriminate.
    intros H.
    apply andb_true_iff in H as [Ha H]. apply andb_true_iff in H as [Hb H].
    apply andb_true_iff in H as [_ H]. apply andb_true_iff in H as [Hd H].
    apply andb_true_iff in H as [Hn _].
    rewrite fnmatch_literal in Ha, Hb, Hd by reflexivity.
    apply String.eqb_eq in Ha, Hb, Hd. subst a b d.
    exists v, name. split; [reflexivity | exact Hn].
  - intros (version & name & -> & Hn). cbn [match_parts].
    rewrite fnmatch_star, Hn. reflexivity.
Qed.

Lemma incompatibleFiles_elem (fs : gset (list string)) (f : list string) :
  f ∈ incompatibleFiles fs <->
  f ∈ fs /\
  exists version name,
    f = ["lib"; "clang"; version; "include"; name] /\
    (startswith "std" name = true \/ name = "limits.h").
Proof.
  unfold incompatibleFiles, glob.
  rewrite elem_of_app, !list_elem_of_In, !List.filter_In, <- !list_elem_of_In,
    !elem_of_elements.
  change (split_slash incompatible_std) with ["lib"; "clang"; "*"; "include"; "std*"].
  change (split_slash incompatible_limits) with ["lib"; "clang"; "*"; "include"; "limits.h"].
  rewrite !match_parts_include. split.
  - intros [[Hf (v & n & -> & Hn)] | [Hf (v & n & -> & Hn)]]; (split; [exact Hf|]);
      exists v, n; (split; [reflexivity|]).
    + left. pose proof (fnmatch_prefix "std" n eq_refl) as E.
      change ("std" +:+ "*") with "std*" in E. congruence.
    + right. rewrite fnmatch_literal in Hn by reflexivity.
      apply String.eqb_eq in Hn. congruence.
  - intros [Hf (v & n & -> & [Hn | ->])].
    + left. split; [exact Hf|]. exists v, n. split; [reflexivity|].
      pose proof (fnmatch_prefix "std" n eq_refl) as E.
      change ("std" +:+ "*") with "std*" in E. congruence.
    + right. split; [exact Hf|]. exists v, "limits.h". split; reflexivity.
Qed.

(** The state in which the loop over the matched files ends. *)
Lemma remove_incompatible_trace (self : BuildLLVM) (l : list (list string)) (w : World) :
  NoDup l ->
  (forall f, f ∈ l -> f ∈ files w) ->
  remove_incompatible self l w =
    (inr tt,
     {| files := if pretend (config self) then files w else files w ∖ list_to_set l;
        log := log w ++
               List.map (fun i => PrintCommand_rm (joinpath (installDir self) (mkPath false i))) l |}).
Proof.
  revert w. induction l as [|i l IH]; intros w Hnd Hin.
  - cbn [remove_incompatible List.map list_to_set foldr]. unfold mret.
    rewrite app_nil_r, difference_empty_L. destruct w, (pretend _); reflexivity.
  - apply NoDup_cons in Hnd as [Hi Hnd].
    cbn [remove_incompatible]. unfold mbind at 1. unfold emit at 1, modify at 1.
    unfold mbind at 1.
    destruct (pretend (config self)) eqn:Hp; cbn [negb].
    + unfold mret at 1. rewrite IH; [|exact Hnd|].
      * rewrite ?Hp. cbn [files log List.map]. rewrite <- app_assoc. reflexivity.
      * intros f Hf. apply Hin, elem_of_cons. right. exact Hf.
    + unfold unlink. cbn [files log].
      rewrite bool_decide_eq_true_2 by (apply Hin, elem_of_cons; left; reflexivity).
      rewrite IH; [|exact Hnd|].
      * rewrite ?Hp. cbn [files log List.map]. rewrite <- app_assoc.
        rewrite list_to_set_cons, difference_difference_l_L. reflexivity.
      * intros f Hf. cbn [files]. apply elem_of_difference. split.
        -- apply Hin, elem_of_cons. right. exact Hf.
        -- intros Hs. apply elem_of_singleton in Hs. subst f. contradiction.
Qed.

Lemma link_tools_trace (self : BuildLLVM) (l : list string) (w : World) :
  link_tools self l w =
    (inr tt,
     {| files := files w;
        log := log w ++
               List.map (fun tool =>
                           CreateBuildtoolTargetSymlinks (div (div (installDir self) "bin") tool)) l |}).
Proof.
  revert w. induction l as [|t l IH]; intros w.
  - cbn [link_tools List.map]. unfold mret. rewrite app_nil_r. destruct w; reflexivity.
  - cbn [link_tools]. unfold mbind, emit, modify. rewrite IH.
    cbn [files log List.map]. rewrite <- app_assoc. reflexivity.
Qed.

(** What [install] returns and leaves, for every tree the generic install
    step hands over. *)
Lemma install_outcome (super : M World unit) (self : BuildLLVM) (w0 w1 : World) :
  super w0 = (inr tt, w1) ->
  install super self w0 =
    match incompatibleFiles (files w1) with
    | [] =>
        (inl (FatalError ["Could not find incompatible builtin includes. Build system changed?"]),
         w1)
    | _ :: _ =>
        (inr tt,
         {| files := if pretend (config self) then files w1
                     else files w1 ∖ list_to_set (incompatibleFiles (files w1));
            log := log w1 ++
                   [Print "Removing incompatible builtin includes..."] ++
                   List.map (fun i => PrintCommand_rm (joinpath (installDir self) (mkPath false i)))
                            (incompatibleFiles (files w1)) ++
                   List.map (fun tool =>
                               CreateBuildtoolTargetSymlinks
                                 (div (div (installDir self) "bin") tool))
                            llvmBinaries |})
    end.
Proof.
  intros H. rewrite (install_run super self w0 w1 H).
  destruct (incompatibleFiles (files w1)) as [|i l] eqn:E; [reflexivity|].
  cbn [length Nat.eqb]. rewrite <- E. unfold mbind.
  rewrite remove_incompatible_trace.
  - rewrite link_tools_trace. cbn [files log]. rewrite <- !app_assoc. reflexivity.
  - apply incompatibleFiles_NoDup.
  - intros f. cbn [files]. apply incompatibleFiles_present.
Qed.

Lemma install_returns (super : M World unit) (self : BuildLLVM) (w0 w1 w2 : World) :
  super w0 = (inr tt, w1) ->
  install super self w0 = (inr tt, w2) ->
  files w2 = (if pretend (config self) then files w1
              else files w1 ∖ list_to_set (incompatibleFiles (files w1))) /\
  log w2 = log w1 ++
           [Print "Removing incompatible builtin includes..."] ++
           List.map (fun i => PrintCommand_rm (joinpath (installDir self) (mkPath false i)))
                    (incompatibleFiles (files w1)) ++
           List.map (fun tool =>
                       CreateBuildtoolTargetSymlinks (div (div (installDir self) "bin") tool))
                    llvmBinaries.
Proof.
  intros H. rewrite (install_outcome super self w0 w1 H).
  destruct (incompatibleFiles (files w1)) as [|i l]; [discriminate|].
  intros E. injection E as <-. split; reflexivity.
Qed.

(** X5. With pretend mode off, a run of [install] that returns removes
    from the installed tree exactly the files
    [lib/clang/<version>/include/<name>] whose name starts with [std] or is
    [limits.h]; every other file stays and no file is added. *)
Theorem install_removes_exactly_builtin_headers :
  forall (CMakeProject_install : M World unit) (self : BuildLLVM) (w0 w1 w2 : World),
    CMakeProject_install w0 = (inr tt, w1) ->
    pretend (config self) = false ->
    install CMakeProject_install self w0 = (inr tt, w2) ->
    forall f,
      f ∈ files w2 <->
      f ∈ files w1 /\
      ~ (exists version name,
            f = ["lib"; "clang"; version; "include"; name] /\
            (startswith "std" name = true \/ name = "limits.h")).
Proof.
  intros super self w0 w1 w2 Hs Hp Hi f.
  destruct (install_returns super self w0 w1 w2 Hs Hi) as [Hf _].
  rewrite Hf, Hp, elem_of_difference, elem_of_list_to_set, incompatibleFiles_elem.
  tauto.
Qed.

Lemma install_removes_exactly_builtin_headers_witness :
  ["lib"; "clang"; "3.8.0"; "include"; "stddef.h"] ∈ files Samples.tree_cleaned <->
  ["lib"; "clang"; "3.8.0"; "include"; "stddef.h"] ∈ files Samples.tree_with_headers /\
  ~ (exists version name,
        ["lib"; "clang"; "3.8.0"; "include"; "stddef.h"] =
          ["lib"; "clang"; version; "include"; name] /\
        (startswith "std" name = true \/ name = "limits.h")).
Proof.
  apply (install_removes_exactly_builtin_headers (mret tt) Samples.llvm
           Samples.tree_with_headers Samples.tree_with_headers Samples.tree_cleaned);
    [reflexivity | reflexivity | vm_compute; reflexivity].
Defined.

(** X6. With pretend mode off, a run of [install] that returns leaves no
    file that the two patterns match, so a second run on a tree with the
    same files ends in the fatal error: the clean-up cannot be repeated
    without a fresh install of the headers. *)
Theorem install_cleanup_not_repeatable :
  forall (CMakeProject_install again : M World unit) (self : BuildLLVM) (w0 w1 w2 w3 : World),
    CMakeProject_install w0 = (inr tt, w1) ->
    pretend (config self) = false ->
    install CMakeProject_install self w0 = (inr tt, w2) ->
    again w2 = (inr tt, w3) ->
    files w3 = files w2 ->
    incompatibleFiles (files w2) = [] /\
    install again self w2 =
      (inl (FatalError ["Could not find incompatible builtin includes. Build system changed?"]),
       w3).
Proof.
  intros super again self w0 w1 w2 w3 Hs Hp Hi Ha Hsame.
  destruct (install_returns super self w0 w1 w2 Hs Hi) as [Hf _]. rewrite Hp in Hf.
  assert (incompatibleFiles (files w2) = []) as Hnone.
  { apply elem_of_nil_inv. intros f Hin.
    pose proof Hin as Hin'. apply incompatibleFiles_elem in Hin' as [Hin2 Hshape].
    rewrite Hf in Hin2. apply elem_of_difference in Hin2 as [Hin1 Hnot].
    apply Hnot, elem_of_list_to_set, incompatibleFiles_elem. split; assumption. }
  split; [exact Hnone|].
  rewrite (install_outcome again self w2 w3 Ha), Hsame, Hnone. reflexivity.
Qed.

Lemma install_cleanup_not_repeatable_witness :
  incompatibleFiles (files Samples.tree_cleaned) = [] /\
  install (mret tt) Samples.llvm Samples.tree_cleaned =
    (inl (FatalError ["Could not find incompatible builtin includes. Build system changed?"]),
     Samples.tree_cleaned).
Proof.
  apply (install_cleanup_not_repeatable (mret tt) (mret tt) Samples.llvm
           Samples.tree_with_headers Samples.tree_with_headers
           Samples.tree_cleaned Samples.tree_cleaned);
    [reflexivity | reflexivity | vm_compute; reflexivity | reflexivity | reflexivity].
Defined.

(** X7. A run of [install] that returns prints the removal command for
    every matched file and then asks for the symlinks of the seven tools
    below [installDir/bin], in the order of the list, in pretend mode as
    well; in pretend mode the tree is left as the generic install step left
    it. *)
Theorem install_trace :
  forall (CMakeProject_install : M World unit) (self : BuildLLVM) (w0 w1 w2 : World),
    CMakeProject_install w0 = (inr tt, w1) ->
    install CMakeProject_install self w0 = (inr tt, w2) ->
    log w2 =
      log w1 ++
      [Print "Removing incompatible builtin includes..."] ++
      List.map (fun i => PrintCommand_rm (joinpath (installDir self) (mkPath false i)))
               (incompatibleFiles (files w1)) ++
      List.map (fun tool =>
                  CreateBuildtoolTargetSymlinks (div (div (installDir self) "bin") tool))
               ["clang"; "clang++"; "llvm-mc"; "llvm-objdump"; "llvm-readobj"; "llvm-size"; "llc"] /\
    (pretend (config self) = true -> files w2 = files w1).
Proof.
  intros super self w0 w1 w2 Hs Hi.
  destruct (install_returns super self w0 w1 w2 Hs Hi) as [Hf Hl].
  split; [exact Hl|]. intros Hp. rewrite Hf, Hp. reflexivity.
Qed.

Lemma install_trace_witness :
  files Samples.tree_pretended = files Samples.tree_with_headers.
Proof.
  refine (proj2 (install_trace (mret tt) Samples.llvm_pretend Samples.tree_with_headers
                   Samples.tree_with_headers Samples.tree_pretended eq_refl _) eq_refl).
  vm_compute. reflexivity.
Defined.

End InstallCleanupMore.

(** ** The configure arguments of the toolchain projects *)

Section ConfigureArgs.
Import Py Pathlib Config LLVM.

Ltac absurd_mem H :=
  repeat (apply elem_of_cons in H as [H|H]; [rewrite ?sapp_cons in H; discriminate H|]);
  apply elem_of_nil in H; contradiction.

(** The list that [BuildLLVM.__init__] builds, part by part. *)
Lemma BuildLLVM_configureArgs_parts (host : Host) (tc : ToolchainConfig) (self : BuildLLVM)
    (base : list string) :
  BuildLLVM_configureArgs host tc self base =
    base ++
    ["-DCMAKE_CXX_COMPILER=" +:+ str_opt (cppCompiler self);
     "-DCMAKE_C_COMPILER=" +:+ str_opt (cCompiler self);
     "-DLLVM_TOOL_LLDB_BUILD=OFF"; "-DCLANG_ENABLE_STATIC_ANALYZER=OFF";
     "-DCLANG_ENABLE_ARCMT=OFF"] ++
    (if IS_FREEBSD host
     then ["-DDEFAULT_SYSROOT=" +:+ str (sdkSysrootDir tc);
           "-DLLVM_DEFAULT_TARGET_TRIPLE=cheri-unknown-freebsd"]
     else []) ++
    (if cheriBits tc =? 128 then ["-DLLVM_CHERI_IS_128=ON"] else []).
Proof.
  unfold BuildLLVM_configureArgs.
  destruct (IS_FREEBSD host), (cheriBits tc =? 128);
    rewrite <- ?app_assoc; cbn [app]; rewrite ?app_nil_r; reflexivity.
Qed.

(** X18. [BuildLLVM.__init__] keeps the arguments of the base class in
    front and puts the two compiler options right behind them, the C++
    compiler first. It passes [-DLLVM_CHERI_IS_128=ON] exactly when
    [cheriBits] is 128 and the default target triple exactly on a FreeBSD
    host (unless the base class passed them already), and always switches
    LLDB off; [BuildLLD.__init__] adds [-DLLVM_TOOL_LLD_BUILD=ON] as the
    last argument. *)
Theorem BuildLLVM_configureArgs_flags :
  forall (host : Host) (tc : ToolchainConfig) (self : BuildLLVM) (base : list string),
    (exists rest,
        BuildLLVM_configureArgs host tc self base =
          base ++ ["-DCMAKE_CXX_COMPILER=" +:+ str_opt (cppCompiler self);
                   "-DCMAKE_C_COMPILER=" +:+ str_opt (cCompiler self)] ++ rest) /\
    ("-DLLVM_CHERI_IS_128=ON" ∈ BuildLLVM_configureArgs host tc self base <->
     cheriBits tc = 128 \/ "-DLLVM_CHERI_IS_128=ON" ∈ base) /\
    ("-DLLVM_DEFAULT_TARGET_TRIPLE=cheri-unknown-freebsd"
       ∈ BuildLLVM_configureArgs host tc self base <->
     IS_FREEBSD host = true \/ "-DLLVM_DEFAULT_TARGET_TRIPLE=cheri-unknown-freebsd" ∈ base) /\
    "-DLLVM_TOOL_LLDB_BUILD=OFF" ∈ BuildLLVM_configureArgs host tc self base /\
    last (BuildLLD_configureArgs host tc self base) = Some "-DLLVM_TOOL_LLD_BUILD=ON".
Proof.
  intros host tc self base.
  split; [|split; [|split; [|split]]].
  - rewrite BuildLLVM_configureArgs_parts. eexists. reflexivity.
  - rewrite BuildLLVM_configureArgs_parts, !elem_of_app. split.
    + intros [H|[H|[H|H]]].
      * right. exact H.
      * absurd_mem H.
      * destruct (IS_FREEBSD host); absurd_mem H.
      * destruct (Z.eqb_spec (cheriBits tc) 128) as [Hb|Hb]; [left; exact Hb|].
        apply elem_of_nil in H. contradiction.
    + intros [H|H]; [|left; exact H].
      right. right. right. rewrite H. apply list_elem_of_here.
  - rewrite BuildLLVM_configureArgs_parts, !elem_of_app. split.
    + intros [H|[H|[H|H]]].
      * right. exact H.
      * absurd_mem H.
      * destruct (IS_FREEBSD host); [left; reflexivity|].
        apply elem_of_nil in H. contradiction.
      * destruct (cheriBits tc =? 128); absurd_mem H.
    + intros [H|H]; [|left; exact H].
      right. right. left. rewrite H. apply list_elem_of_further, list_elem_of_here.
  - rewrite BuildLLVM_configureArgs_parts, !elem_of_app.
    right. left. do 2 apply list_elem_of_further. apply list_elem_of_here.
  - apply last_snoc.
Qed.

Lemma BuildLLVM_configureArgs_flags_witness :
  "-DLLVM_CHERI_IS_128=ON"
    ∈ BuildLLVM_configureArgs Samples.host_no_banner
        (mkToolchainConfig 128 (of_str "/build/sdk/sysroot")) Samples.llvm
        ["-DCMAKE_BUILD_TYPE=Release"] /\
  ~ "-DLLVM_CHERI_IS_128=ON"
    ∈ BuildLLVM_configureArgs Samples.host_no_banner
        (mkToolchainConfig 256 (of_str "/build/sdk/sysroot")) Samples.llvm
        ["-DCMAKE_BUILD_TYPE=Release"].
Proof.
  split.
  - apply (proj1 (proj2 (BuildLLVM_configureArgs_flags Samples.host_no_banner
                           (mkToolchainConfig 128 (of_str "/build/sdk/sysroot")) Samples.llvm
                           ["-DCMAKE_BUILD_TYPE=Release"]))).
    left. reflexivity.
  - intros H.
    apply (proj1 (proj2 (BuildLLVM_configureArgs_flags Samples.host_no_banner
                           (mkToolchainConfig 256 (of_str "/build/sdk/sysroot")) Samples.llvm
                           ["-DCMAKE_BUILD_TYPE=Release"]))) in H.
    destruct H as [H|H]; [discriminate H|].
    apply elem_of_cons in H as [H|H]; [discriminate H|].
    apply elem_of_nil in H. contradiction.
Defined.

End ConfigureArgs.

(** ** More on the path resolver and the flag composer *)

Section PathResolverMore.
Import Py Pathlib Config Cross.

Lemma lower_ascii_slash (c : ascii) :
  Ascii.eqb "/" (lower_ascii c) = Ascii.eqb "/" c.
Proof. destruct c as [[] [] [] [] [] [] [] []]; reflexivity. Qed.

Lemma startswith_slash_lower (name : string) :
  startswith "/" (lower name) = startswith "/" name.
Proof.
  destruct name as [|c name]; [reflexivity|].
  unfold startswith. cbn [lower strip_prefix]. rewrite lower_ascii_slash.
  destruct (Ascii.eqb "/" c); reflexivity.
Qed.

(** X8. A project that keeps the default install directory
    [rootfs/extra/<lower-case name>], with a name that does not start with
    [/], is always constructed, and its install prefix is
    [/extra/<lower-case name>]. *)
Theorem default_installDir_installPrefix :
  forall (o : Options) (projectName : string),
    installDir o = installToCheriBSDRootfs (rootfsDir o) projectName ->
    startswith "/" projectName = false ->
    exists p,
      CrossCompileProject_init o = inr p /\
      installPrefix p = div (of_str "/extra") (lower projectName).
Proof.
  intros o name Hdir Hname.
  assert (anchored (of_str (lower name)) = false) as Hq.
  { cbn [of_str anchored]. rewrite startswith_slash_lower. exact Hname. }
  assert (installDir o =
          joinpath (rootfsDir o) (mkPath false (["extra"] ++ parts (of_str (lower name)))))
    as Hin.
  { rewrite Hdir. unfold installToCheriBSDRootfs, div.
    change (of_str "extra") with (mkPath false ["extra"]).
    unfold joinpath. rewrite Hq. cbn [anchored parts]. rewrite <- app_assoc. reflexivity. }
  unfold CrossCompileProject_init. rewrite (relative_to_inside _ _ _ Hin). cbn [bind ret].
  eexists. split; [reflexivity|]. cbn [installPrefix].
  unfold div. change (of_str "/extra") with (mkPath true ["extra"]).
  change (of_str "/") with (mkPath true []).
  unfold joinpath. rewrite Hq. reflexivity.
Qed.

Lemma default_installDir_installPrefix_witness :
  exists p,
    CrossCompileProject_init
      (mkOptions (Samples.cheriConfig false)
                 (installToCheriBSDRootfs Samples.rootfs "LibCXX") "libcxx"
                 "cheri" false "lld" false ["-O0"] Samples.rootfs) = inr p /\
    installPrefix p = div (of_str "/extra") (lower "LibCXX").
Proof.
  apply (default_installDir_installPrefix
           (mkOptions (Samples.cheriConfig false)
                      (installToCheriBSDRootfs Samples.rootfs "LibCXX") "libcxx"
                      "cheri" false "lld" false ["-O0"] Samples.rootfs)
           "LibCXX"); reflexivity.
Defined.

(** X9. After construction the root for the install step and the install
    prefix give the install directory back: [destdir] is the rootfs
    directory and the components of [installPrefix], which starts at [/],
    lead from it to [installDir]. The two SDK directories lie inside
    [sdkDir], and the compiler is looked up in the SDK binary directory. *)
Theorem destdir_installPrefix_roundtrip :
  forall (o : Options) (p : CrossCompileProject),
    CrossCompileProject_init o = inr p ->
    joinpath (destdir p) (mkPath false (parts (installPrefix p))) = installDir o /\
    anchored (installPrefix p) = true /\
    destdir p = rootfsDir o /\
    is_inside (sdkBinDir p) (sdkDir (config o)) /\
    is_inside (sdkSysroot p) (sdkDir (config o)) /\
    compilerDir p = sdkBinDir p.
Proof.
  intros o p. unfold CrossCompileProject_init.
  destruct (relative_to (installDir o) (rootfsDir o)) as [e|rel] eqn:E; [discriminate|].
  cbn [bind ret]. intros H. injection H as <-.
  cbn [destdir installPrefix sdkBinDir sdkSysroot compilerDir].
  pose proof (relative_to_returns _ _ _ E) as [rest Hin].
  rewrite (relative_to_inside _ _ _ Hin) in E. injection E as <-.
  split; [|split; [|split; [|split; [|split]]]]; try reflexivity.
  - rewrite Hin. reflexivity.
  - exists ["bin"]. reflexivity.
  - exists ["sysroot"]. reflexivity.
Qed.

Lemma destdir_installPrefix_roundtrip_witness :
  joinpath (destdir Samples.libcxx) (mkPath false (parts (installPrefix Samples.libcxx))) =
  of_str "/build/rootfs/extra/libcxx".
Proof.
  exact (proj1 (destdir_installPrefix_roundtrip Samples.libcxx_options Samples.libcxx eq_refl)).
Defined.

(** X10. [LDFLAGS] holds [-static] exactly when dynamic linking was not
    asked for; it has five entries then and four otherwise, and it does
    not depend on the lists of compiler flags of the project. *)
Theorem LDFLAGS_static :
  forall (p : CrossCompileProject),
    ("-static" ∈ LDFLAGS p <-> linkDynamic (options p) = false) /\
    length (LDFLAGS p) = (if linkDynamic (options p) then 4%nat else 5%nat) /\
    forall extra, LDFLAGS (append_common extra p) = LDFLAGS p.
Proof.
  intros p. split; [|split].
  - unfold LDFLAGS. destruct (linkDynamic (options p)); cbn [negb app].
    + split; [|discriminate]. intros H.
      repeat (apply elem_of_cons in H as [H|H];
              [rewrite ?sapp_cons in H; discriminate H|]).
      apply elem_of_nil in H. contradiction.
    + split; [reflexivity|]. intros _.
      do 4 (apply elem_of_cons; right). apply list_elem_of_here.
  - unfold LDFLAGS. destruct (linkDynamic (options p)); reflexivity.
  - intros extra. reflexivity.
Qed.

End PathResolverMore.

(** ** More on the toolchain template engine *)

Section TemplateEngineMore.
Import Py Pathlib Config Cross.

Lemma str_in_at_app (a b : string) :
  str_in "@" (a +:+ b) = str_in "@" a || str_in "@" b.
Proof.
  induction a as [|c a IH].
  - rewrite sapp_nil_l. reflexivity.
  - rewrite sapp_cons. cbn [str_in]. rewrite IH.
    unfold startswith. cbn [strip_prefix].
    destruct (Ascii.eqb "@" c); cbn [orb]; reflexivity.
Qed.

(** The loop over the keys of a well-formed template replaces one
    placeholder after the other, behind a text [pre] that holds no [@]. *)
Lemma substitute_pieces (pieces : list (string * string * value)) (pre last : string) :
  str_in "@" pre = false ->
  well_formed pieces last = true ->
  substitute (pre +:+ render pieces last) (kwargs_of pieces)
    = inr (pre +:+ filled pieces last) /\
  str_in "@" (pre +:+ filled pieces last) = false.
Proof.
  revert pre. induction pieces as [|[[lit key] v] pieces IH]; intros pre Hpre Hwf.
  - cbn [well_formed] in Hwf. apply negb_true_iff in Hwf.
    cbn [render filled kwargs_of List.map substitute]. split; [reflexivity|].
    rewrite str_in_at_app, Hpre, Hwf. reflexivity.
  - cbn [well_formed] in Hwf.
    apply andb_true_iff in Hwf as [Hwf Hrest].
    apply andb_true_iff in Hwf as [Hwf Hback].
    apply andb_true_iff in Hwf as [Hlit Hval].
    apply negb_true_iff in Hlit, Hval, Hback.
    cbn [render filled kwargs_of List.map substitute fst snd].
    fold (kwargs_of pieces).
    assert (pre +:+ lit +:+ placeholder key +:+ render pieces last =
            (pre +:+ lit) +:+ placeholder key +:+ render pieces last) as Etext
      by (rewrite sapp_assoc; reflexivity).
    rewrite Etext.
    assert (str_in "@" (pre +:+ lit) = false) as Hfront
      by (rewrite str_in_at_app, Hpre, Hlit; reflexivity).
    assert (str_in (placeholder key)
                   ((pre +:+ lit) +:+ placeholder key +:+ render pieces last) = true) as ->
      by (apply str_in_iff; eexists; eexists; reflexivity).
    rewrite (replace_placeholder key (strval v) _ _ Hfront), (replace_absent _ _ _ Hback).
    assert (str_in "@" ((pre +:+ lit) +:+ strval v) = false) as Hnext
      by (rewrite str_in_at_app, Hfront, Hval; reflexivity).
    destruct (IH ((pre +:+ lit) +:+ strval v) Hnext Hrest) as [Hs Hat].
    rewrite <- (sapp_assoc (pre +:+ lit) (strval v) (render pieces last)).
    split.
    + rewrite Hs. f_equal. rewrite !sapp_assoc. reflexivity.
    + rewrite !sapp_assoc in Hat. exact Hat.
Qed.

(** X11. For a template that is written as literal texts and placeholders,
    in which no literal and no value holds an [@] and no placeholder occurs
    again behind its place, the engine, called with the keys in the order
    of the template, does not fail and writes the template with every
    placeholder replaced by its value to the toolchain file. *)
Theorem prepareToolchainFile_fills_template :
  forall (self : CMakeObject) (pieces : list (string * string * value)) (last : string),
    cmakeTemplate self = render pieces last ->
    well_formed pieces last = true ->
    exists self',
      _prepareToolchainFile (kwargs_of pieces) self = (inr tt, self') /\
      written self' = written self ++ [(toolchainFile self, filled pieces last)] /\
      str_in "@" (filled pieces last) = false.
Proof.
  intros self pieces last Ht Hwf.
  destruct (substitute_pieces pieces EmptyString last eq_refl Hwf) as [Hs Hat].
  change (EmptyString +:+ render pieces last) with (render pieces last) in Hs.
  change (EmptyString +:+ filled pieces last) with (filled pieces last) in Hs, Hat.
  unfold _prepareToolchainFile. rewrite Ht, Hs, Hat.
  eexists. split; [reflexivity|]. split; reflexivity.
Qed.

Lemma prepareToolchainFile_fills_template_witness :
  exists self',
    _prepareToolchainFile Samples.plain_kwargs (Samples.cmake "set(X @A@) set(Y @B@)") =
      (inr tt, self') /\
    written self' =
      written (Samples.cmake "set(X @A@) set(Y @B@)") ++
      [(toolchainFile (Samples.cmake "set(X @A@) set(Y @B@)"), "set(X x) set(Y y z)")] /\
    str_in "@" "set(X x) set(Y y z)" = false.
Proof.
  apply (prepareToolchainFile_fills_template (Samples.cmake "set(X @A@) set(Y @B@)")
           [("set(X ", "A", VStr "x"); (") set(Y ", "B", VList ["y"; "z"])] ")");
    reflexivity.
Defined.

(** X12. Whatever the keys and the template: a call that fails raises an
    assertion error with a message and leaves the object as it was, so no
    file is written; a call that returns has written one file, the
    toolchain file, with a text free of [@], and has changed nothing
    else. *)
Theorem prepareToolchainFile_effects :
  forall (kwargs : list (string * value)) (self self' : CMakeObject) (r : result unit),
    _prepareToolchainFile kwargs self = (r, self') ->
    (forall e, r = inl e -> self' = self /\ exists msg, e = AssertionError (Some msg)) /\
    (r = inr tt ->
     cm_project self' = cm_project self /\
     cmakeTemplate self' = cmakeTemplate self /\
     toolchainFile self' = toolchainFile self /\
     exists text,
       written self' = written self ++ [(toolchainFile self, text)] /\
       str_in "@" text = false).
Proof.
  intros kwargs self self' r. unfold _prepareToolchainFile.
  destruct (substitute (cmakeTemplate self) kwargs) as [e|text] eqn:E.
  - intros H. injection H as <- <-. split; [|discriminate].
    intros e' He. injection He as <-. split; [reflexivity|].
    clear -E. revert E. generalize (cmakeTemplate self).
    induction kwargs as [|[key v] kwargs IH]; intros t E; [discriminate E|].
    cbn [substitute] in E. destruct (str_in (placeholder key) t).
    + exact (IH _ E).
    + injection E as <-. eexists. reflexivity.
  - destruct (str_in "@" text) eqn:Hat; intros H; injection H as <- <-.
    + split; [|discriminate]. intros e He. injection He as <-.
      split; [reflexivity|]. eexists. reflexivity.
    + split; [discriminate|]. intros _. cbn.
      repeat split. exists text. split; [reflexivity | exact Hat].
Qed.

Lemma prepareToolchainFile_effects_witness :
  snd (_prepareToolchainFile Samples.plain_kwargs (Samples.cmake "set(X @A@) set(Y @C@)")) =
  Samples.cmake "set(X @A@) set(Y @C@)".
Proof.
  apply (proj1 (prepareToolchainFile_effects Samples.plain_kwargs
                  (Samples.cmake "set(X @A@) set(Y @C@)")
                  (snd (_prepareToolchainFile Samples.plain_kwargs
                          (Samples.cmake "set(X @A@) set(Y @C@)")))
                  (inl (AssertionError (Some "B"))) eq_refl)
           (AssertionError (Some "B")) eq_refl).
Defined.

Lemma CMake_configure_run (super : M CMakeObject unit) (self : CMakeObject) :
  CMake_configure super self =
    match _prepareToolchainFile (toolchain_kwargs (cm_project (with_bindir_flag self)))
                                (with_bindir_flag self) with
    | (inl e, s) => (inl e, s)
    | (inr _, s) => super s
    end.
Proof. reflexivity. Qed.

(** X13. [CrossCompileCMakeProject.configure] appends [-B<sdkBinDir>] to
    [COMMON_FLAGS] before it fills the template. When one of the nine keys
    finds no placeholder it fails with an assertion error naming one of
    the nine keys, without running the configure step of the base class
    and without writing a file, and the appended flag stays. When all nine
    are found and no [@] is left, the base class runs on the object with
    the filled template written to the toolchain file. *)
Theorem CMake_configure_template :
  forall (super : M CMakeObject unit) (self : CMakeObject),
    COMMON_FLAGS (cm_project (with_bindir_flag self)) =
      COMMON_FLAGS (cm_project self) ++ ["-B" +:+ str (sdkBinDir (cm_project self))] /\
    (all_found (cmakeTemplate self) (toolchain_kwargs (cm_project (with_bindir_flag self)))
       = false ->
     exists key,
       key ∈ List.map fst (toolchain_kwargs (cm_project (with_bindir_flag self))) /\
       CMake_configure super self = (inl (AssertionError (Some key)), with_bindir_flag self)) /\
    (all_found (cmakeTemplate self) (toolchain_kwargs (cm_project (with_bindir_flag self)))
       = true ->
     str_in "@" (subst_all (toolchain_kwargs (cm_project (with_bindir_flag self)))
                           (cmakeTemplate self)) = false ->
     exists self',
       CMake_configure super self = super self' /\
       cm_project self' = cm_project (with_bindir_flag self) /\
       written self' =
         written self ++
         [(toolchainFile self,
           subst_all (toolchain_kwargs (cm_project (with_bindir_flag self)))
                     (cmakeTemplate self))]).
Proof.
  intros super self. split; [reflexivity|]. rewrite CMake_configure_run. split.
  - intros Hf.
    destruct (all_found_false _ _ Hf) as (done & key & v & rest & Hk & Hd & Hm).
    exists key. split.
    + rewrite Hk, List.map_app. apply elem_of_app. right. apply list_elem_of_here.
    + unfold _prepareToolchainFile. rewrite Hk.
      change (cmakeTemplate (with_bindir_flag self)) with (cmakeTemplate self).
      rewrite (substitute_missing _ done rest key v Hd Hm). reflexivity.
  - intros Hf Hat. unfold _prepareToolchainFile.
    change (cmakeTemplate (with_bindir_flag self)) with (cmakeTemplate self).
    rewrite (substitute_all_found _ _ Hf), Hat.
    eexists. split; [reflexivity|]. split; reflexivity.
Qed.

Lemma CMake_configure_template_witness :
  (exists key,
      key ∈ List.map fst
              (toolchain_kwargs (cm_project (with_bindir_flag (Samples.cmake "set(X @A@)")))) /\
      CMake_configure (mret tt) (Samples.cmake "set(X @A@)") =
        (inl (AssertionError (Some key)), with_bindir_flag (Samples.cmake "set(X @A@)"))) /\
  (exists self',
      CMake_configure (mret tt) (Samples.cmake Samples.toolchain_template) = mret tt self' /\
      cm_project self' = cm_project (with_bindir_flag (Samples.cmake Samples.toolchain_template)) /\
      written self' =
        written (Samples.cmake Samples.toolchain_template) ++
        [(toolchainFile (Samples.cmake Samples.toolchain_template),
          subst_all
            (toolchain_kwargs
               (cm_project (with_bindir_flag (Samples.cmake Samples.toolchain_template))))
            (cmakeTemplate (Samples.cmake Samples.toolchain_template)))]).
Proof.
  split.
  - apply (proj1 (proj2 (CMake_configure_template (mret tt) (Samples.cmake "set(X @A@)")))).
    vm_compute. reflexivity.
  - apply (proj2 (proj2 (CMake_configure_template (mret tt)
                           (Samples.cmake Samples.toolchain_template))));
      vm_compute; reflexivity.
Defined.

End TemplateEngineMore.

(** ** More on the configure-style project *)

Section AutotoolsMore.
Import Py Pathlib Config Cross.

Lemma index_dot_first (major rest : string) :
  str_in "." major = false ->
  index_dot (major +:+ "." +:+ rest) = Some (String.length major).
Proof.
  induction major as [|c major IH]; intros H; [reflexivity|].
  cbn [str_in] in H. apply orb_false_iff in H as [H1 H2].
  unfold startswith in H1. cbn [strip_prefix] in H1.
  rewrite sapp_cons. cbn [index_dot String.length]. rewrite Ascii.eqb_sym.
  destruct (Ascii.eqb "." c); [discriminate H1|].
  rewrite (IH H2). reflexivity.
Qed.

Lemma index_dot_none (s : string) : str_in "." s = false -> index_dot s = None.
Proof.
  induction s as [|c s IH]; intros H; [reflexivity|].
  cbn [str_in] in H. apply orb_false_iff in H as [H1 H2].
  unfold startswith in H1. cbn [strip_prefix] in H1.
  cbn [index_dot]. rewrite Ascii.eqb_sym.
  destruct (Ascii.eqb "." c); [discriminate H1|].
  rewrite (IH H2). reflexivity.
Qed.

Lemma substring_front (a b : string) : String.substring 0 (String.length a) (a +:+ b) = a.
Proof.
  induction a as [|c a IH].
  - destruct b; reflexivity.
  - rewrite sapp_cons. cbn [String.length String.substring]. rewrite IH. reflexivity.
Qed.

(** X14. On a FreeBSD host the build triple of a configure-style project
    ends in the text of the kernel release in front of its first dot, and
    construction fails with [ValueError] when the release holds no dot; on
    any other host the build triple is [x86_64-unknown-linux-gnu] whatever
    the release is. [--host] and [--target] are the target triple. *)
Theorem Autotools_configureArgs_buildhost :
  forall (p : CrossCompileProject) (base : list string) (release : string),
    (forall major rest,
        release = major +:+ "." +:+ rest ->
        str_in "." major = false ->
        Autotools_configureArgs true release p base =
          inr (base ++ ["--host=" +:+ targetTriple p; "--target=" +:+ targetTriple p;
                        "--build=" +:+ "x86_64-unknown-freebsd" +:+ major])) /\
    (str_in "." release = false ->
     exists msg, Autotools_configureArgs true release p base = inl (ValueError msg)) /\
    Autotools_configureArgs false release p base =
      inr (base ++ ["--host=" +:+ targetTriple p; "--target=" +:+ targetTriple p;
                    "--build=x86_64-unknown-linux-gnu"]).
Proof.
  intros p base release. split; [|split].
  - intros major rest -> H. unfold Autotools_configureArgs, buildhost.
    rewrite (index_dot_first _ _ H), substring_front. reflexivity.
  - intros H. unfold Autotools_configureArgs, buildhost.
    rewrite (index_dot_none _ H). eexists. reflexivity.
  - reflexivity.
Qed.

Lemma Autotools_configureArgs_buildhost_witness :
  Autotools_configureArgs true "11.0-RELEASE-p1" Samples.libcxx ["--prefix=/extra/libcxx"] =
    inr ["--prefix=/extra/libcxx"; "--host=cheri-unknown-freebsd";
         "--target=cheri-unknown-freebsd"; "--build=x86_64-unknown-freebsd11"] /\
  exists msg,
    Autotools_configureArgs true "CURRENT" Samples.libcxx ["--prefix=/extra/libcxx"] =
      inl (ValueError msg).
Proof.
  split.
  - apply (proj1 (Autotools_configureArgs_buildhost Samples.libcxx ["--prefix=/extra/libcxx"]
                    "11.0-RELEASE-p1") "11" "0-RELEASE-p1"); reflexivity.
  - apply (proj1 (proj2 (Autotools_configureArgs_buildhost Samples.libcxx
                           ["--prefix=/extra/libcxx"] "CURRENT"))).
    reflexivity.
Defined.

(** X15. When the four flag keys are unset, [configure] changes the
    environment at the six keys it writes and nowhere else: every other
    variable keeps its value (or stays unset), and the set of variables
    grows by just these six. *)
Theorem Autotools_configure_other_keys :
  forall (super : M AutotoolsObject unit) (self : AutotoolsObject),
    (forall key, key ∈ checkedKeys -> configureEnvironment self !! key = None) ->
    exists self',
      Autotools_configure super self = super self' /\
      (forall key, key ∉ writtenKeys ->
                   configureEnvironment self' !! key = configureEnvironment self !! key) /\
      dom (configureEnvironment self') =
        dom (configureEnvironment self) ∪ list_to_set writtenKeys.
Proof.
  intros super self H. exists (derived self).
  rewrite Autotools_configure_run, (assert_unset_pass checkedKeys (extended self) H).
  split; [reflexivity|]. split.
  - intros key Hk. unfold derived. cbn [configureEnvironment].
    unfold writtenKeys in Hk.
    rewrite !lookup_insert_ne; [reflexivity | intros E; subst key ..]; apply Hk;
      repeat first [apply list_elem_of_here | apply list_elem_of_further].
  - unfold derived. cbn [configureEnvironment]. rewrite !dom_insert_L.
    unfold writtenKeys. cbn [list_to_set foldr].
    apply set_eq. intros x. rewrite !elem_of_union, !elem_of_singleton, elem_of_empty.
    tauto.
Qed.

Lemma Autotools_configure_other_keys_witness :
  exists self',
    Autotools_configure (mret tt) Samples.autotools_CC = mret tt self' /\
    (forall key, key ∉ writtenKeys ->
                 configureEnvironment self' !! key =
                 configureEnvironment Samples.autotools_CC !! key) /\
    dom (configureEnvironment self') =
      dom (configureEnvironment Samples.autotools_CC) ∪ list_to_set writtenKeys.
Proof.
  apply (Autotools_configure_other_keys (mret tt) Samples.autotools_CC).
  intros key Hk. vm_compute in Hk.
  repeat (apply elem_of_cons in Hk as [->|Hk]; [reflexivity|]).
  apply elem_of_nil in Hk. contradiction.
Defined.

Lemma join_app_front (l m : list string) :
  l <> [] ->
  join " " (l ++ m) =
  join " " l +:+ match m with [] => EmptyString | _ => " " +:+ join " " m end.
Proof.
  unfold join. induction l as [|x [|y l] IH]; intros Hl; [contradiction| |].
  - cbn [app String.concat]. destruct m; [rewrite sapp_nil_r|]; reflexivity.
  - change (String.concat " " ((x :: y :: l) ++ m))
      with (x +:+ " " +:+ String.concat " " ((y :: l) ++ m)).
    rewrite IH by discriminate.
    change (String.concat " " (x :: y :: l))
      with (x +:+ " " +:+ String.concat " " (y :: l)).
    rewrite !sapp_assoc. reflexivity.
Qed.

Lemma join_app_startswith (l m : list string) :
  l <> [] -> startswith (join " " l) (join " " (l ++ m)) = true.
Proof. intros Hl. rewrite (join_app_front l m Hl). apply startswith_app. Qed.

(** X16. The value that [configure] gives to [CPPFLAGS] starts both the
    value of [CFLAGS] and the value of [CXXFLAGS]: the extra C and C++
    flags of a project come behind the common, warning and optimization
    flags and never in front of them. *)
Theorem Autotools_configure_CPPFLAGS_in_front :
  forall (super : M AutotoolsObject unit) (self : AutotoolsObject),
    (forall key, key ∈ checkedKeys -> configureEnvironment self !! key = None) ->
    exists self' cppflags cflags cxxflags,
      Autotools_configure super self = super self' /\
      configureEnvironment self' !! "CPPFLAGS" = Some cppflags /\
      configureEnvironment self' !! "CFLAGS" = Some cflags /\
      configureEnvironment self' !! "CXXFLAGS" = Some cxxflags /\
      startswith cppflags cflags = true /\
      startswith cppflags cxxflags = true.
Proof.
  intros super self H. exists (derived self).
  rewrite Autotools_configure_run, (assert_unset_pass checkedKeys (extended self) H).
  do 3 eexists. split; [reflexivity|].
  unfold derived. cbn [configureEnvironment].
  split; [|split; [|split]].
  - repeat (rewrite lookup_insert_ne by discriminate). rewrite lookup_insert_eq. reflexivity.
  - repeat (rewrite lookup_insert_ne by discriminate). rewrite lookup_insert_eq. reflexivity.
  - repeat (rewrite lookup_insert_ne by discriminate). rewrite lookup_insert_eq. reflexivity.
  - split; apply join_app_startswith; intros E; apply app_eq_nil in E as [_ E];
      discriminate E.
Qed.

Lemma Autotools_configure_CPPFLAGS_in_front_witness :
  exists self' cppflags cflags cxxflags,
    Autotools_configure (mret tt) Samples.autotools_fresh = mret tt self' /\
    configureEnvironment self' !! "CPPFLAGS" = Some cppflags /\
    configureEnvironment self' !! "CFLAGS" = Some cflags /\
    configureEnvironment self' !! "CXXFLAGS" = Some cxxflags /\
    startswith cppflags cflags = true /\
    startswith cppflags cxxflags = true.
Proof.
  apply (Autotools_configure_CPPFLAGS_in_front (mret tt) Samples.autotools_fresh).
  intros key _. apply lookup_empty.
Defined.

(** X17. [configure] cannot be run twice on an object: after a run that
    returned, with a base class that leaves [CFLAGS] in the environment, a
    second run fails at the assertion, and it has by then appended the
    sysroot, binary-directory and target flags to [COMMON_FLAGS] a second
    time, while the environment stays as the first run left it. *)
Theorem Autotools_configure_twice :
  forall (super again : M AutotoolsObject unit) (self self1 : AutotoolsObject),
    (forall key, key ∈ checkedKeys -> configureEnvironment self !! key = None) ->
    (forall s s', super s = (inr tt, s') ->
                  is_Some (configureEnvironment s !! "CFLAGS") ->
                  is_Some (configureEnvironment s' !! "CFLAGS")) ->
    Autotools_configure super self = (inr tt, self1) ->
    exists self2,
      Autotools_configure again self1 = (inl (AssertionError None), self2) /\
      configureEnvironment self2 = configureEnvironment self1 /\
      COMMON_FLAGS (at_project self2) =
        COMMON_FLAGS (at_project self1) ++
        ["--sysroot=" +:+ str (sdkSysroot (at_project self1));
         "-B" +:+ str (sdkBinDir (at_project self1));
         "-target"; targetTriple (at_project self1)].
Proof.
  intros super again self self1 Hunset Hkeep Hrun.
  rewrite Autotools_configure_run, (assert_unset_pass checkedKeys (extended self) Hunset)
    in Hrun.
  assert (is_Some (configureEnvironment self1 !! "CFLAGS")) as Hset.
  { apply (Hkeep _ _ Hrun). unfold derived. cbn [configureEnvironment].
    repeat (rewrite lookup_insert_ne by discriminate). rewrite lookup_insert_eq.
    eexists. reflexivity. }
  exists (extended self1). rewrite Autotools_configure_run.
  rewrite (assert_unset_fail checkedKeys (extended self1) "CFLAGS");
    [split; [reflexivity|]; split; reflexivity | apply list_elem_of_here | exact Hset].
Qed.

Lemma Autotools_configure_twice_witness :
  exists self2,
    Autotools_configure (mret tt) (derived Samples.autotools_fresh) =
      (inl (AssertionError None), self2) /\
    configureEnvironment self2 = configureEnvironment (derived Samples.autotools_fresh) /\
    COMMON_FLAGS (at_project self2) =
      COMMON_FLAGS (at_project (derived Samples.autotools_fresh)) ++
      ["--sysroot=" +:+ str (sdkSysroot (at_project (derived Samples.autotools_fresh)));
       "-B" +:+ str (sdkBinDir (at_project (derived Samples.autotools_fresh)));
       "-target"; targetTriple (at_project (derived Samples.autotools_fresh))].
Proof.
  apply (Autotools_configure_twice (mret tt) (mret tt) Samples.autotools_fresh
           (derived Samples.autotools_fresh)).
  - intros key _. apply lookup_empty.
  - intros s s' E Hs. injection E as <-. exact Hs.
  - vm_compute. reflexivity.
Defined.

End AutotoolsMore.
